(** * A Plus Charge backend: a shallow embedding of [main.py]

    The service has four routes.  This development embeds the three that
    carry logic -- [GET /test], [POST /api/leads] (with the e-mail
    dispatcher [send_auto_email]) and [POST /api/roi] -- and proves the
    properties of the specification about them.

    Conventions.
    - A Python [str] is a list of Unicode code points ([str]); the string
      literals of the source are written in UTF-8 and decoded by [py].
    - A Python [float] is an IEEE-754 binary64 value, modelled by the
      Standard Library's [spec_float] with precision 53 and [emax] 1024.
    - A Python call either returns or raises: [outcome].  Code with
      effects threads a state (the local [response] dict of [/test], the
      trace of external calls of the lead handler) through [Py].
    - The collaborators that are not in [main.py] -- the [database]
      module, [requests.post], the process environment, the e-mail
      syntax check behind [EmailStr], [repr] of a dict -- are inputs of
      the model ([World]): every theorem holds for every behaviour of
      them. *)

From Stdlib Require Import ZArith NArith Bool List Lia.
From Stdlib Require Import Floats.SpecFloat.
From stdpp Require Import base option list strings gmap.

Local Open Scope Z_scope.
Set Warnings "-register-all".

(* ===================================================================== *)
(** * Python strings *)
(* ===================================================================== *)

Module PyStr.

(** One code point. *)
Definition char := N.

(** A Python [str]. *)
Definition str := list char.

Definition bytes_of (s : string) : list N :=
  map (fun b => N.of_nat (Ascii.nat_of_ascii b)) (String.list_ascii_of_string s).

(** UTF-8 decoding of the bytes of a source literal. *)
Fixpoint utf8_decode (bs : list N) : str :=
  match bs with
  | [] => []
  | b0 :: r0 =>
      if (b0 <? 128)%N then b0 :: utf8_decode r0
      else if (b0 <? 224)%N then
        match r0 with
        | b1 :: r1 => ((b0 mod 32) * 64 + b1 mod 64)%N :: utf8_decode r1
        | _ => []
        end
      else if (b0 <? 240)%N then
        match r0 with
        | b1 :: b2 :: r2 =>
            ((b0 mod 16) * 4096 + (b1 mod 64) * 64 + b2 mod 64)%N :: utf8_decode r2
        | _ => []
        end
      else
        match r0 with
        | b1 :: b2 :: b3 :: r3 =>
            ((b0 mod 8) * 262144 + (b1 mod 64) * 4096 + (b2 mod 64) * 64 + b3 mod 64)%N
              :: utf8_decode r3
        | _ => []
        end
  end.

(** The [str] denoted by a literal of the source. *)
Definition py (s : string) : str := utf8_decode (bytes_of s).

(** Truthiness of a [str]: the empty string is false. *)
Definition truthy (s : str) : bool :=
  match s with [] => false | _ => true end.

(** Truthiness of an [Optional[str]]: [None] and [''] are false. *)
Definition truthy_opt (o : option str) : bool :=
  match o with Some s => truthy s | None => false end.

(** [o or ''] for an [Optional[str]]. *)
Definition or_empty (o : option str) : str :=
  match o with Some (c :: s) => c :: s | _ => [] end.

(** [s[:n]]. *)
Definition slice_to (n : nat) (s : str) : str := take n s.

Fixpoint startswith (p s : str) : bool :=
  match p, s with
  | [], _ => true
  | a :: p', b :: s' => (a =? b)%N && startswith p' s'
  | _ :: _, [] => false
  end.

(** [p in s]: [p] occurs in [s] as a contiguous run. *)
Fixpoint contains (p s : str) : bool :=
  startswith p s ||
  match s with
  | [] => false
  | _ :: s' => contains p s'
  end.

(** [p] and [s] differ at a place both have: [p] cannot start at the
    head of [s], whatever follows [s]. *)
Fixpoint clash (p s : str) : bool :=
  match p, s with
  | a :: p', b :: s' => if (a =? b)%N then clash p' s' else true
  | _, _ => false
  end.

(** [p] clashes with [s] at every place of [s]: no occurrence of [p] in a
    longer text starts inside [s]. *)
Fixpoint clear_of (p s : str) : bool :=
  match s with
  | [] => true
  | _ :: s' => clash p s && clear_of p s'
  end.

End PyStr.
Import PyStr.
Arguments slice_to : simpl never.
Arguments py : simpl never.

(* ===================================================================== *)
(** * Outcomes of Python calls *)
(* ===================================================================== *)

(** An exception object (a subclass of [Exception]), kept as its class
    name and the text [str(e)]. *)
Record exn := Exn { exn_class : string; exn_str : str }.

Inductive outcome (A : Type) : Type :=
| Return (a : A)
| Raise (e : exn).
Arguments Return {A} a.
Arguments Raise {A} e.

Definition obind {A B} (m : outcome A) (k : A -> outcome B) : outcome B :=
  match m with
  | Return a => k a
  | Raise e => Raise e
  end.

Notation "'let?' x ':=' m 'in' k" := (obind m (fun x => k))
  (at level 10, x name, m at level 100, k at level 200).

(* ===================================================================== *)
(** * Python floats *)
(* ===================================================================== *)

Module PyFloat.

Definition prec : Z := 53.
Definition emax : Z := 1024.

Definition float := spec_float.

Definition fmul : float -> float -> float := SFmul prec emax.
Definition fadd : float -> float -> float := SFadd prec emax.
Definition fsub : float -> float -> float := SFsub prec emax.

(** [float(z)] for a Python int [z]. *)
Definition float_of_int (z : Z) : float := binary_normalize prec emax z 0 false.

(** The float denoted by the decimal literal [n / 10^places]: the nearest
    binary64 value, ties to even. *)
Definition float_of_decimal (n : Z) (places : nat) : float :=
  match n with
  | Z0 => S754_zero false
  | Zpos p => SFdiv prec emax (S754_finite false p 0)
                (S754_finite false (Z.to_pos (10 ^ Z.of_nat places)) 0)
  | Zneg p => SFdiv prec emax (S754_finite true p 0)
                (S754_finite false (Z.to_pos (10 ^ Z.of_nat places)) 0)
  end.

Definition is_zero (x : float) : bool :=
  match x with S754_zero _ => true | _ => false end.

(** [x / y]: Python raises [ZeroDivisionError] on a zero divisor, and
    otherwise divides as IEEE-754 does. *)
Definition truediv (x y : float) : outcome float :=
  if is_zero y
  then Raise (Exn "ZeroDivisionError" (py "float division by zero"))
  else Return (SFdiv prec emax x y).

(** [x > 0], the right operand being the int [0]; false on NaN. *)
Definition gt0 (x : float) : bool := SFltb (S754_zero false) x.

(** [round(x, 2)]: NaN, the infinities and the zeros round to themselves;
    a finite [x] goes to the multiple of 1/100 nearest to its exact binary
    value, ties to the even multiple, and that decimal is read back as the
    nearest float; the sign is kept when the result is zero.  (CPython
    raises [OverflowError] when the decimal read back exceeds the float
    range; with two digits this cannot occur, as floats of that size are
    integers and round to themselves.) *)
Definition round2 (x : float) : float :=
  match x with
  | S754_finite s m e =>
      let num := Zpos m * 100 * 2 ^ Z.max e 0 in
      let den := 2 ^ Z.max (- e) 0 in
      let q := num / den in
      let r := num mod den in
      let k := if 2 * r <? den then q
               else if den <? 2 * r then q + 1
               else if Z.even q then q else q + 1 in
      match k with
      | Zpos kp => SFdiv prec emax (S754_finite s kp 0) (S754_finite false 100 0)
      | _ => S754_zero s
      end
  | _ => x
  end.

End PyFloat.
Import PyFloat.

(* ===================================================================== *)
(** * The ROI calculator: [POST /api/roi] *)
(* ===================================================================== *)

(** [class ROICalcIn(BaseModel)]; [opex_per_month] defaults to [0]. *)
Record ROICalcIn := {
  daily_sessions : float;
  avg_kwh_per_session : float;
  tariff_per_kwh : float;
  cost_per_kwh : float;
  station_cost : float;
  opex_per_month : float
}.

(** [class ROICalcOut(BaseModel)]. *)
Record ROICalcOut := {
  monthly_revenue : float;
  monthly_cost : float;
  monthly_profit : float;
  payback_months : option float
}.

(** The unrounded [profit] local of [calculate_roi]. *)
Definition roi_profit (payload : ROICalcIn) : float :=
  let sessions_per_month := fmul (daily_sessions payload) (float_of_int 30) in
  let energy_sold := fmul sessions_per_month (avg_kwh_per_session payload) in
  let revenue := fmul energy_sold (tariff_per_kwh payload) in
  let energy_cost := fmul energy_sold (cost_per_kwh payload) in
  let monthly_cost := fadd energy_cost (opex_per_month payload) in
  fsub revenue monthly_cost.

Definition calculate_roi (payload : ROICalcIn) : outcome ROICalcOut :=
  let sessions_per_month := fmul (daily_sessions payload) (float_of_int 30) in
  let energy_sold := fmul sessions_per_month (avg_kwh_per_session payload) in
  let revenue := fmul energy_sold (tariff_per_kwh payload) in
  let energy_cost := fmul energy_sold (cost_per_kwh payload) in
  let monthly_cost := fadd energy_cost (opex_per_month payload) in
  let profit := fsub revenue monthly_cost in
  let? payback_months :=
    if gt0 profit && gt0 (station_cost payload)
    then let? q := truediv (station_cost payload) profit in
         Return (Some (round2 q))
    else Return None in
  Return {| monthly_revenue := round2 revenue;
            monthly_cost := round2 monthly_cost;
            monthly_profit := round2 profit;
            payback_months := payback_months |}.

(* ===================================================================== *)
(** * The world outside [main.py] *)
(* ===================================================================== *)

(** A [dict] with [str] keys written in the source, in insertion order. *)
Definition dict (V : Type) := list (string * V).

(** The keyword arguments [json=] and [data=] of [requests.post] carry
    strings and one list of strings. *)
Inductive field_value :=
| VStr (s : str)
| VList (l : list str).

(** One call of [requests.post]. *)
Record Request := {
  url : str;
  headers : dict str;
  auth : option (str * str);
  json : option (dict field_value);
  data : option (dict field_value);
  timeout : Z
}.

(** What [requests.post] hands back when it does not raise. *)
Record Response := {
  status_code : Z;
  reason : str
}.

(** [resp.raise_for_status()]: [HTTPError] on a 4xx or 5xx status. *)
Definition raise_for_status (resp : Response) : outcome unit :=
  if (400 <=? status_code resp) && (status_code resp <? 600)
  then Raise (Exn "HTTPError" (reason resp))
  else Return tt.

(** Calls that leave the process, in the order they are made. *)
Inductive Event :=
| EvCreateDocument (collection : str) (doc : dict (option str))
| EvPost (req : Request).

Definition trace := list Event.

(** The [db] object of the [database] module, as far as [/test] uses it:
    [getattr(db, 'name', None)] and [db.list_collection_names()]. *)
Record Database := {
  db_name : outcome (option str);
  list_collection_names : outcome (list str)
}.

(** Everything [main.py] reads or calls and does not define.  The two
    calls that leave the process may answer differently each time: they
    see the trace of the calls made so far. *)
Record World := {
  environ : gmap string str;
  import_db : outcome (option Database);
  create_document : str -> dict (option str) -> trace -> outcome str;
  requests_post : Request -> trace -> outcome Response;
  (** the syntax check behind [EmailStr]: the normalised address, or
      [None] for a string that is not an address *)
  validate_email : str -> option str;
  (** [repr] of a dict, as an f-string renders it *)
  repr_dict : dict (option str) -> str
}.

(** [os.getenv(key)] and [os.getenv(key, default)]. *)
Definition getenv (w : World) (key : string) : option str := environ w !! key.

Definition getenv_default (w : World) (key : string) (default : str) : str :=
  match environ w !! key with Some v => v | None => default end.

(* ===================================================================== *)
(** * Stateful Python code *)
(* ===================================================================== *)

Definition Py (S A : Type) : Type := S -> outcome A * S.

Definition ret {S A} (a : A) : Py S A := fun s => (Return a, s).

Definition bind {S A B} (m : Py S A) (k : A -> Py S B) : Py S B :=
  fun s => match m s with
           | (Return a, s') => k a s'
           | (Raise e, s') => (Raise e, s')
           end.

(** A call without effect on the state. *)
Definition lift {S A} (o : outcome A) : Py S A := fun s => (o, s).

Definition modify {S} (f : S -> S) : Py S unit := fun s => (Return tt, f s).

(** [try: body  except Exception as e: handler(e)]; what [body] did to the
    state before raising stays done. *)
Definition try_except {S A} (body : Py S A) (handler : exn -> Py S A) : Py S A :=
  fun s => match body s with
           | (Return a, s') => (Return a, s')
           | (Raise e, s') => handler e s'
           end.

Notation "'do' x <- m ; k" := (bind m (fun x => k))
  (at level 10, x name, m at level 100, k at level 200).
Notation "'run' m ; k" := (bind m (fun _ => k))
  (at level 10, m at level 100, k at level 200).

(* ===================================================================== *)
(** * The diagnostic route: [GET /test] *)
(* ===================================================================== *)

(** The [response] dict of [test_database]; the two values that start as
    [None] are optional. *)
Record TestResponse := {
  backend : str;
  database : str;
  database_url : option str;
  database_name : option str;
  connection_status : str;
  collections : list str
}.

Definition set_database (v : str) (r : TestResponse) : TestResponse :=
  {| backend := backend r; database := v; database_url := database_url r;
     database_name := database_name r; connection_status := connection_status r;
     collections := collections r |}.

Definition set_database_url (v : str) (r : TestResponse) : TestResponse :=
  {| backend := backend r; database := database r; database_url := Some v;
     database_name := database_name r; connection_status := connection_status r;
     collections := collections r |}.

Definition set_database_name (v : str) (r : TestResponse) : TestResponse :=
  {| backend := backend r; database := database r; database_url := database_url r;
     database_name := Some v; connection_status := connection_status r;
     collections := collections r |}.

Definition set_connection_status (v : str) (r : TestResponse) : TestResponse :=
  {| backend := backend r; database := database r; database_url := database_url r;
     database_name := database_name r; connection_status := v;
     collections := collections r |}.

Definition set_collections (v : list str) (r : TestResponse) : TestResponse :=
  {| backend := backend r; database := database r; database_url := database_url r;
     database_name := database_name r; connection_status := connection_status r;
     collections := v |}.

Definition initial_response : TestResponse :=
  {| backend := py "✅ Running";
     database := py "❌ Not Available";
     database_url := None;
     database_name := None;
     connection_status := py "Not Connected";
     collections := [] |}.

(** [name or default] for the optional [name] of the database. *)
Definition or_default (o : option str) (default : str) : str :=
  if truthy_opt o then or_empty o else default.

Definition test_database_body (w : World) : Py TestResponse unit :=
  try_except
    (do db <- lift (import_db w);
     match db with
     | Some db =>
         run modify (set_database (py "✅ Available"));
         run modify (set_database_url
                       (if truthy_opt (getenv w "DATABASE_URL")
                        then py "✅ Set" else py "❌ Not Set"));
         do name <- lift (db_name db);
         run modify (set_database_name (or_default name (py "✅ Connected")));
         run modify (set_connection_status (py "Connected"));
         try_except
           (do collections <- lift (list_collection_names db);
            run modify (set_collections (take 10 collections));
            modify (set_database (py "✅ Connected & Working")))
           (fun e => modify (set_database
                               (py "⚠️ Connected but Error: " ++ slice_to 80 (exn_str e))))
     | None =>
         modify (set_database (py "⚠️ Available but not initialized"))
     end)
    (fun e => modify (set_database (py "❌ Error: " ++ slice_to 80 (exn_str e)))).

Definition test_database (w : World) : outcome TestResponse :=
  match test_database_body w initial_response with
  | (Return _, response) => Return response
  | (Raise e, _) => Raise e
  end.

(* ===================================================================== *)
(** * The e-mail dispatcher: [send_auto_email] *)
(* ===================================================================== *)

Definition resend_url : str := py "https://api.resend.com/emails".

Definition mailgun_url (mailgun_domain : str) : str :=
  py "https://api.mailgun.net/v3/" ++ mailgun_domain ++ py "/messages".

(** The four fields both providers are sent. *)
Definition message_fields (from_email to_email subject html : str) : dict field_value :=
  [ ("from", VStr (py "A Plus Charge <" ++ from_email ++ py ">"));
    ("to", VList [to_email]);
    ("subject", VStr subject);
    ("html", VStr html) ].

Definition resend_request (resend_api_key from_email to_email subject html : str)
  : Request :=
  {| url := resend_url;
     headers := [ ("Authorization", py "Bearer " ++ resend_api_key);
                  ("Content-Type", py "application/json") ];
     auth := None;
     json := Some (message_fields from_email to_email subject html);
     data := None;
     timeout := 10 |}.

Definition mailgun_request
  (mailgun_api_key mailgun_domain from_email to_email subject html : str) : Request :=
  {| url := mailgun_url mailgun_domain;
     headers := [];
     auth := Some (py "api", mailgun_api_key);
     json := None;
     data := Some (message_fields from_email to_email subject html);
     timeout := 10 |}.

(** [requests.post(...)]: the call is made, then it returns or raises. *)
Definition post (w : World) (req : Request) : Py trace Response :=
  fun tr => (requests_post w req tr, tr ++ [EvPost req]).

(** The patterns [Some (_ :: _)] are the truthiness tests [if key:] of the
    source: the variable is set and not empty. *)
Definition send_auto_email (w : World) (to_email subject html : str) : Py trace unit :=
  let resend_api_key := getenv w "RESEND_API_KEY" in
  let mailgun_api_key := getenv w "MAILGUN_API_KEY" in
  let mailgun_domain := getenv w "MAILGUN_DOMAIN" in
  let from_email := getenv_default w "FROM_EMAIL" (py "noreply@apluscharge.com") in
  try_except
    (match resend_api_key with
     | Some ((_ :: _) as key) =>
         do resp <- post w (resend_request key from_email to_email subject html);
         run lift (raise_for_status resp);
         ret tt
     | _ =>
         match mailgun_api_key, mailgun_domain with
         | Some ((_ :: _) as key), Some ((_ :: _) as domain) =>
             do resp <- post w (mailgun_request key domain from_email to_email subject html);
             run lift (raise_for_status resp);
             ret tt
         | _, _ => ret tt
         end
     end)
    (fun _ => ret tt).

(* ===================================================================== *)
(** * Lead capture: [POST /api/leads] *)
(* ===================================================================== *)

(** A JSON value of a request body. *)
Inductive JSON :=
| JNull
| JBool (b : bool)
| JNum (x : float)
| JStr (s : str)
| JArr (l : list JSON)
| JObj (members : list (string * JSON)).

(** [class LeadIn(BaseModel)]. *)
Record LeadIn := {
  name : str;
  email : str;
  phone : option str;
  company : option str;
  message : option str;
  city : option str;
  state : option str;
  country : option str;
  source : option str;
  utm_source : option str;
  utm_medium : option str;
  utm_campaign : option str
}.

(** Member [k] of a JSON object; of two members with one key the later
    one counts. *)
Fixpoint member (k : string) (o : list (string * JSON)) : option JSON :=
  match o with
  | [] => None
  | (k', v) :: o' =>
      match member k o' with
      | Some v' => Some v'
      | None => if String.eqb k k' then Some v else None
      end
  end.

(** A field [k: str]: required, and a string. *)
Definition required_str (k : string) (o : list (string * JSON)) : option str :=
  match member k o with
  | Some (JStr s) => Some s
  | _ => None
  end.

(** A field [k: EmailStr]: required, a string, and an address. *)
Definition required_email (w : World) (k : string) (o : list (string * JSON))
  : option str :=
  match member k o with
  | Some (JStr s) => validate_email w s
  | _ => None
  end.

(** A field [k: Optional[str] = default]: absent, [null] or a string. *)
Definition optional_str (k : string) (default : option str)
  (o : list (string * JSON)) : option (option str) :=
  match member k o with
  | None => Some default
  | Some JNull => Some None
  | Some (JStr s) => Some (Some s)
  | Some _ => None
  end.

Definition failed {A} (k : string) (r : option A) : list string :=
  match r with Some _ => [] | None => [k] end.

(** The fields of [LeadIn] a body fails on, in the order of the class. *)
Definition validation_errors (w : World) (o : list (string * JSON)) : list string :=
  failed "name" (required_str "name" o)
  ++ failed "email" (required_email w "email" o)
  ++ failed "phone" (optional_str "phone" None o)
  ++ failed "company" (optional_str "company" None o)
  ++ failed "message" (optional_str "message" None o)
  ++ failed "city" (optional_str "city" None o)
  ++ failed "state" (optional_str "state" None o)
  ++ failed "country" (optional_str "country" (Some (py "India")) o)
  ++ failed "source" (optional_str "source" (Some (py "website")) o)
  ++ failed "utm_source" (optional_str "utm_source" None o)
  ++ failed "utm_medium" (optional_str "utm_medium" None o)
  ++ failed "utm_campaign" (optional_str "utm_campaign" None o).

(** Validation of a request body against [LeadIn]: the lead, or the
    places of the errors. *)
Definition validate_LeadIn (w : World) (body : JSON) : list string + LeadIn :=
  match body with
  | JObj o =>
      let built :=
        name ← required_str "name" o;
        email ← required_email w "email" o;
        phone ← optional_str "phone" None o;
        company ← optional_str "company" None o;
        message ← optional_str "message" None o;
        city ← optional_str "city" None o;
        state ← optional_str "state" None o;
        country ← optional_str "country" (Some (py "India")) o;
        source ← optional_str "source" (Some (py "website")) o;
        utm_source ← optional_str "utm_source" None o;
        utm_medium ← optional_str "utm_medium" None o;
        utm_campaign ← optional_str "utm_campaign" None o;
        Some {| name := name; email := email; phone := phone; company := company;
                message := message; city := city; state := state;
                country := country; source := source; utm_source := utm_source;
                utm_medium := utm_medium; utm_campaign := utm_campaign |} in
      match built with
      | Some lead => inr lead
      | None => inl (validation_errors w o)
      end
  | _ => inl ["body"]
  end.

(** [lead.model_dump()]. *)
Definition model_dump (lead : LeadIn) : dict (option str) :=
  [ ("name", Some (name lead)); ("email", Some (email lead));
    ("phone", phone lead); ("company", company lead);
    ("message", message lead); ("city", city lead); ("state", state lead);
    ("country", country lead); ("source", source lead);
    ("utm_source", utm_source lead); ("utm_medium", utm_medium lead);
    ("utm_campaign", utm_campaign lead) ].

Definition nl : str := [10%N].

(** The line of [indent] spaces and [text] that follows a line break of
    the template. *)
Definition line (indent : nat) (text : str) : str :=
  nl ++ replicate indent 32%N ++ text.

Definition phone_line (lead : LeadIn) : str :=
  match phone lead with
  | Some ((_ :: _) as p) => py "<li>Phone: " ++ p ++ py "</li>"
  | _ => []
  end.

Definition company_line (lead : LeadIn) : str :=
  match company lead with
  | Some ((_ :: _) as c) => py "<li>Company: " ++ c ++ py "</li>"
  | _ => []
  end.

Definition city_state_line (lead : LeadIn) : str :=
  py "<li>City/State: " ++ or_empty (city lead) ++ py " "
    ++ or_empty (state lead) ++ py "</li>".

(** The f-string [html_body] of [create_lead], line by line. *)
Definition html_body (lead : LeadIn) : str :=
  line 8 (py "<div style='font-family:Inter,Arial,sans-serif'>")
  ++ line 8 (py "<h2>Hi " ++ name lead ++ py ",</h2>")
  ++ line 8 (py "<p>Thanks for reaching out to A Plus Charge. Our team will get back to you shortly.</p>")
  ++ line 8 (py "<p><strong>Summary:</strong></p>")
  ++ line 8 (py "<ul>")
  ++ line 12 (py "<li>Email: " ++ email lead ++ py "</li>")
  ++ line 12 (phone_line lead)
  ++ line 12 (company_line lead)
  ++ line 12 (city_state_line lead)
  ++ line 8 (py "</ul>")
  ++ line 8 (py "<p>Regards,<br/>A Plus Charge Team</p>")
  ++ line 8 (py "</div>")
  ++ line 8 [].

(** [create_document("lead", doc)]: the call is made, then it returns the
    new identifier or raises. *)
Definition call_create_document (w : World) (collection : str)
  (doc : dict (option str)) : Py trace str :=
  fun tr => (create_document w collection doc tr,
             tr ++ [EvCreateDocument collection doc]).

(** The body of the [try] of [create_lead]. *)
Definition create_lead_try (w : World) (lead : LeadIn) : Py trace (dict str) :=
  do lead_id <- call_create_document w (py "lead") (model_dump lead);
  let subject := py "Thanks for contacting A Plus Charge" in
  run send_auto_email w (email lead) subject (html_body lead);
  let notify_email := getenv w "NOTIFY_EMAIL" in
  run match notify_email with
      | Some ((_ :: _) as notify) =>
          send_auto_email w notify
            (py "New Lead: " ++ name lead)
            (py "New website lead:<br/><pre>" ++ repr_dict w (model_dump lead)
               ++ py "</pre>")
      | _ => ret tt
      end;
  ret [("status", py "success"); ("id", lead_id)].

(** What a handler hands to the framework: a value, or an
    [HTTPException]. *)
Inductive handled (A : Type) : Type :=
| Ok (a : A)
| HTTPException (status_code : Z) (detail : str).
Arguments Ok {A} a.
Arguments HTTPException {A} status_code detail.

Definition create_lead (w : World) (lead : LeadIn) (tr : trace)
  : handled (dict str) * trace :=
  match create_lead_try w lead tr with
  | (Return d, tr') => (Ok d, tr')
  | (Raise e, tr') => (HTTPException 500 (exn_str e), tr')
  end.

(** The HTTP answers of [POST /api/leads]. *)
Inductive LeadResponse :=
| Success (content : dict str)
| UnprocessableEntity (errors : list string)
| Error (status_code : Z) (detail : str).

Definition response_status (r : LeadResponse) : Z :=
  match r with
  | Success _ => 200
  | UnprocessableEntity _ => 422
  | Error status_code _ => status_code
  end.

(** The route: the body is validated against [LeadIn] first, and the
    handler runs on a valid lead only. *)
Definition post_api_leads (w : World) (body : JSON) (tr : trace)
  : LeadResponse * trace :=
  match validate_LeadIn w body with
  | inl errors => (UnprocessableEntity errors, tr)
  | inr lead =>
      match create_lead w lead tr with
      | (Ok d, tr') => (Success d, tr')
      | (HTTPException status_code detail, tr') => (Error status_code detail, tr')
      end
  end.

(* ===================================================================== *)
(** * The formulas of the specification *)
(* ===================================================================== *)

Module Spec.

(** [round(daily_sessions*30*avg_kwh_per_session*tariff_per_kwh, 2)],
    the product read from left to right as Python does. *)
Definition revenue (p : ROICalcIn) : float :=
  round2 (fmul (fmul (fmul (daily_sessions p) (float_of_int 30))
                  (avg_kwh_per_session p)) (tariff_per_kwh p)).

(** [round(daily_sessions*30*avg_kwh_per_session*cost_per_kwh
          + opex_per_month, 2)]. *)
Definition cost (p : ROICalcIn) : float :=
  round2 (fadd (fmul (fmul (fmul (daily_sessions p) (float_of_int 30))
                        (avg_kwh_per_session p)) (cost_per_kwh p))
            (opex_per_month p)).

(** [round(revenue - (energy_cost + opex_per_month), 2)] on the unrounded
    revenue and energy cost. *)
Definition profit (p : ROICalcIn) : float :=
  let energy_sold :=
    fmul (fmul (daily_sessions p) (float_of_int 30)) (avg_kwh_per_session p) in
  round2 (fsub (fmul energy_sold (tariff_per_kwh p))
            (fadd (fmul energy_sold (cost_per_kwh p)) (opex_per_month p))).

(** [payback_months] as the algorithm of the specification gives it: on
    the unrounded profit. *)
Definition payback (p : ROICalcIn) : option float :=
  if gt0 (roi_profit p) && gt0 (station_cost p)
  then Some (round2 (SFdiv prec emax (station_cost p) (roi_profit p)))
  else None.

(** The invariant of the data model read on the response: the payback is
    present exactly when the returned [monthly_profit] and the station
    cost are positive. *)
Definition payback_iff_returned_profit (p : ROICalcIn) : Prop :=
  forall out, calculate_roi p = Return out ->
    (is_Some (payback_months out)
     <-> gt0 (monthly_profit out) = true /\ gt0 (station_cost p) = true).

(** The provider selection policy: a fixed priority order over what is
    configured. *)
Inductive provider := Resend | Mailgun.

(** A variable of the environment is configured: set, and not empty. *)
Definition configured (w : World) (key : string) : bool :=
  truthy_opt (getenv w key).

Definition selected_provider (w : World) : option provider :=
  if configured w "RESEND_API_KEY" then Some Resend
  else if configured w "MAILGUN_API_KEY" && configured w "MAILGUN_DOMAIN"
       then Some Mailgun
  else None.

(** Two worlds with the same store and the same address check; their
    environment and their network may differ. *)
Definition same_store (w w' : World) : Prop :=
  create_document w = create_document w' /\ validate_email w = validate_email w'.

(** The request the policy sends: to the selected provider, with the
    credentials of the environment. *)
Definition dispatch_request (w : World) (to_email subject html : str)
  : option Request :=
  let from_email := getenv_default w "FROM_EMAIL" (py "noreply@apluscharge.com") in
  match selected_provider w with
  | Some Resend =>
      Some (resend_request (or_empty (getenv w "RESEND_API_KEY"))
              from_email to_email subject html)
  | Some Mailgun =>
      Some (mailgun_request (or_empty (getenv w "MAILGUN_API_KEY"))
              (or_empty (getenv w "MAILGUN_DOMAIN"))
              from_email to_email subject html)
  | None => None
  end.

(** The calls a dispatch adds to the trace. *)
Definition dispatched (w : World) (to_email subject html : str) : trace :=
  match dispatch_request w to_email subject html with
  | Some req => [EvPost req]
  | None => []
  end.

(** A provider call that fails: [requests.post] raises (network error,
    timeout), or the answer has a status [raise_for_status] raises on. *)
Definition request_fails (w : World) (req : Request) (tr : trace) : Prop :=
  match requests_post w req tr with
  | Raise _ => True
  | Return resp => exists e, raise_for_status resp = Raise e
  end.

(** A body without a [name], or whose [name] is the empty string. *)
Definition name_missing_or_empty (body : JSON) : Prop :=
  match body with
  | JObj o => member "name" o = None \/ member "name" o = Some (JStr [])
  | _ => True
  end.

(** A body without a [name] that is a string. *)
Definition name_missing (body : JSON) : Prop :=
  match body with
  | JObj o => required_str "name" o = None
  | _ => True
  end.

(** A body whose [email] is not a syntactically valid address. *)
Definition email_malformed (w : World) (body : JSON) : Prop :=
  match body with
  | JObj o => required_email w "email" o = None
  | _ => True
  end.

(** The route answers 422 and calls neither the store nor a provider. *)
Definition rejected_without_effect (w : World) (body : JSON) : Prop :=
  forall tr, exists errors,
    errors <> [] /\ post_api_leads w body tr = (UnprocessableEntity errors, tr).

(** Every body with a missing or empty name or a malformed email is
    rejected. *)
Definition invalid_leads_rejected : Prop :=
  forall w body,
    name_missing_or_empty body \/ email_malformed w body ->
    rejected_without_effect w body.

(** The answer to a valid lead, read off the outcome of the write. *)
Definition lead_response (written : outcome str) : LeadResponse :=
  match written with
  | Return lead_id => Success [("status", py "success"); ("id", lead_id)]
  | Raise e => Error 500 (exn_str e)
  end.

(** The [database] text of [/test], step by step of the diagnosis. *)
Definition database_text (w : World) : str :=
  match import_db w with
  | Raise e => py "❌ Error: " ++ slice_to 80 (exn_str e)
  | Return None => py "⚠️ Available but not initialized"
  | Return (Some db) =>
      match db_name db with
      | Raise e => py "❌ Error: " ++ slice_to 80 (exn_str e)
      | Return _ =>
          match list_collection_names db with
          | Raise e => py "⚠️ Connected but Error: " ++ slice_to 80 (exn_str e)
          | Return _ => py "✅ Connected & Working"
          end
      end
  end.

(** Every response of [/test] has its six fields, and each is a string
    or a list of at most ten strings. *)
Definition test_fields_strings : Prop :=
  forall w, exists r,
    test_database w = Return r
    /\ is_Some (database_url r) /\ is_Some (database_name r)
    /\ (length (collections r) <= 10)%nat.

(** The [database] texts that do not report an exception. *)
Definition database_states : list str :=
  [ py "⚠️ Available but not initialized"; py "✅ Connected & Working" ].

(** The [database] texts that report an exception: a fixed prefix and the
    start of the text of the exception. *)
Definition error_prefixes : list str :=
  [ py "❌ Error: "; py "⚠️ Connected but Error: " ].

(** The openings of the three optional lines of the confirmation mail. *)
Definition phone_marker : str := py "<li>Phone: ".
Definition company_marker : str := py "<li>Company: ".
Definition city_state_marker : str := py "<li>City/State: ".

(** The City/State line is in the body only when city or state is set. *)
Definition city_state_only_when_set (lead : LeadIn) : Prop :=
  contains city_state_marker (html_body lead) = true ->
  truthy_opt (city lead) || truthy_opt (state lead) = true.

(** A text without the character [<]. *)
Definition no_markup (s : str) : Prop := Forall (fun c => c <> 60%N) s.

(** A lead none of whose texts shown in the mail has a [<]. *)
Definition plain_text (lead : LeadIn) : Prop :=
  no_markup (name lead) /\ no_markup (email lead)
  /\ no_markup (or_empty (phone lead)) /\ no_markup (or_empty (company lead))
  /\ no_markup (or_empty (city lead)) /\ no_markup (or_empty (state lead)).

(** [x < 0], the right operand being the int [0]; false on NaN. *)
Definition lt0 (x : float) : bool := SFltb x (S754_zero false).

(** [math.isnan(x)]. *)
Definition is_nan (x : float) : bool :=
  match x with S754_nan => true | _ => false end.

(** [math.isfinite(x)]: neither an infinity nor NaN. *)
Definition is_finite (x : float) : bool :=
  match x with S754_zero _ | S754_finite _ _ _ => true | _ => false end.

(** The sign bit of a float, NaN having none. *)
Definition sign_bit (x : float) : option bool :=
  match x with
  | S754_nan => None
  | S754_zero s | S754_infinity s | S754_finite s _ _ => Some s
  end.

(** The fields of [LeadIn] declared [Optional[str]]. *)
Definition optional_fields : list string :=
  [ "phone"; "company"; "message"; "city"; "state"; "country"; "source";
    "utm_source"; "utm_medium"; "utm_campaign" ].

(** A JSON value that is neither [null] nor a string. *)
Definition not_text (v : JSON) : Prop :=
  match v with JNull | JStr _ => False | _ => True end.

(** A call of [requests.post], as opposed to a write to the store. *)
Definition is_post (ev : Event) : bool :=
  match ev with EvPost _ => true | EvCreateDocument _ _ => false end.

(** The subject and the body of the two mails of [create_lead]. *)
Definition confirmation_subject : str := py "Thanks for contacting A Plus Charge".

Definition notification_subject (lead : LeadIn) : str := py "New Lead: " ++ name lead.

Definition notification_html (w : World) (lead : LeadIn) : str :=
  py "New website lead:<br/><pre>" ++ repr_dict w (model_dump lead) ++ py "</pre>".

(** The mails of a stored lead: the confirmation to the lead, then the
    notification to [NOTIFY_EMAIL] when that is configured. *)
Definition lead_mails (w : World) (lead : LeadIn) : trace :=
  dispatched w (email lead) confirmation_subject (html_body lead)
  ++ (if configured w "NOTIFY_EMAIL"
      then dispatched w (or_empty (getenv w "NOTIFY_EMAIL"))
             (notification_subject lead) (notification_html w lead)
      else []).

(** The environment with the Resend key taken out; everything else as it
    is. *)
Definition without_resend (w : World) : World :=
  {| environ := delete "RESEND_API_KEY" (environ w);
     import_db := import_db w;
     create_document := create_document w;
     requests_post := requests_post w;
     validate_email := validate_email w;
     repr_dict := repr_dict w |}.

(** Field [k] of [LeadIn] fails on the object [o]: name and email are
    required and must be strings, the email an address; every other field
    may be absent or null and must otherwise be a string. *)
Definition field_fails (w : World) (o : list (string * JSON)) (k : string) : bool :=
  match member k o with
  | Some (JStr s) =>
      if String.eqb k "email"
      then match validate_email w s with Some _ => false | None => true end
      else false
  | Some JNull | None => String.eqb k "name" || String.eqb k "email"
  | Some _ => true
  end.

End Spec.

(* ===================================================================== *)
(** * Sample inputs *)
(* ===================================================================== *)

Module Sample.

(** The worked example of the specification. *)
Definition roi_example : ROICalcIn :=
  {| daily_sessions := float_of_int 10;
     avg_kwh_per_session := float_of_int 20;
     tariff_per_kwh := float_of_int 10;
     cost_per_kwh := float_of_int 6;
     station_cost := float_of_int 100000;
     opex_per_month := float_of_int 0 |}.

(** One session a day of 1 kWh sold at 0.0001 with no cost: the profit is
    0.003 a month. *)
Definition roi_thin_margin : ROICalcIn :=
  {| daily_sessions := float_of_int 1;
     avg_kwh_per_session := float_of_int 1;
     tariff_per_kwh := float_of_decimal 1 4;
     cost_per_kwh := float_of_int 0;
     station_cost := float_of_int 100000;
     opex_per_month := float_of_int 0 |}.

(** The address check used in the samples: something, an [@], something. *)
Definition has_at (s : str) : option str :=
  match s with
  | c :: rest =>
      if negb (c =? 64)%N && contains [64%N] rest
         && negb (N.eqb (List.last rest 0%N) 64) then Some s else None
  | [] => None
  end.

Definition answer_ok : Response := {| status_code := 200; reason := py "OK" |}.

(** No provider configured, no database handle, a store that accepts. *)
Definition bare_world : World :=
  {| environ := ∅;
     import_db := Return None;
     create_document := fun _ _ _ => Return (py "665f0c1e9b1d8a2f4c3e7a10");
     requests_post := fun _ _ => Return answer_ok;
     validate_email := has_at;
     repr_dict := fun _ => py "{...}" |}.

(** Both providers configured, and a network that is down. *)
Definition network_down : World :=
  {| environ := <["RESEND_API_KEY" := py "re_key"]>
                  (<["MAILGUN_API_KEY" := py "mg_key"]>
                     (<["MAILGUN_DOMAIN" := py "mg.example.com"]> ∅));
     import_db := Return None;
     create_document := fun _ _ _ => Return (py "665f0c1e9b1d8a2f4c3e7a10");
     requests_post := fun _ _ => Raise (Exn "ConnectionError" (py "connection refused"));
     validate_email := has_at;
     repr_dict := fun _ => py "{...}" |}.

(** A store that refuses the write. *)
Definition store_down : World :=
  {| environ := ∅;
     import_db := Raise (Exn "ImportError" (py "cannot import name 'db'"));
     create_document := fun _ _ _ => Raise (Exn "Exception" (py "Database not available"));
     requests_post := fun _ _ => Return answer_ok;
     validate_email := has_at;
     repr_dict := fun _ => py "{...}" |}.

(** [{"name": "", "email": "asha@example.com"}]. *)
Definition body_empty_name : JSON :=
  JObj [ ("name", JStr []); ("email", JStr (py "asha@example.com")) ].

(** [{"email": "asha@example.com"}]. *)
Definition body_no_name : JSON :=
  JObj [ ("email", JStr (py "asha@example.com")) ].

(** [{"name": "Asha", "email": "asha@example.com"}]. *)
Definition body_asha : JSON :=
  JObj [ ("name", JStr (py "Asha")); ("email", JStr (py "asha@example.com")) ].

(** The lead of [body_asha]: no phone, company, city or state. *)
Definition lead_asha : LeadIn :=
  {| name := py "Asha"; email := py "asha@example.com";
     phone := None; company := None; message := None;
     city := None; state := None;
     country := Some (py "India"); source := Some (py "website");
     utm_source := None; utm_medium := None; utm_campaign := None |}.


(** A lead with a phone and a city, no company and no state. *)
Definition lead_ravi : LeadIn :=
  {| name := py "Ravi"; email := py "ravi@example.com";
     phone := Some (py "+91 98200 00000"); company := None; message := None;
     city := Some (py "Pune"); state := None;
     country := Some (py "India"); source := Some (py "website");
     utm_source := None; utm_medium := None; utm_campaign := None |}.

(** A database handle named [apluscharge] with twelve collections. *)
Definition handle : Database :=
  {| db_name := Return (Some (py "apluscharge"));
     list_collection_names :=
       Return (map py [ "lead"; "users"; "stations"; "sessions"; "tariffs";
                        "invoices"; "payments"; "sites"; "alerts"; "audit";
                        "tokens"; "jobs" ]) |}.

(** A handle without a name whose listing is refused. *)
Definition handle_unauthorized : Database :=
  {| db_name := Return None;
     list_collection_names :=
       Raise (Exn "OperationFailure" (py "not authorized on apluscharge")) |}.

(** A handle whose name cannot be read. *)
Definition handle_broken : Database :=
  {| db_name := Raise (Exn "RuntimeError" (py "handle closed"));
     list_collection_names := Return [] |}.

Definition with_database (db : Database) : World :=
  {| environ := <["DATABASE_URL" := py "mongodb://localhost:27017"]> ∅;
     import_db := Return (Some db);
     create_document := fun _ _ _ => Return (py "665f0c1e9b1d8a2f4c3e7a10");
     requests_post := fun _ _ => Return answer_ok;
     validate_email := has_at;
     repr_dict := fun _ => py "{...}" |}.

(** Mailgun configured, and an address for the internal notification. *)
Definition mailgun_world : World :=
  {| environ := <["MAILGUN_API_KEY" := py "mg_key"]>
                  (<["MAILGUN_DOMAIN" := py "mg.example.com"]>
                     (<["NOTIFY_EMAIL" := py "sales@apluscharge.com"]> ∅));
     import_db := Return None;
     create_document := fun _ _ _ => Return (py "665f0c1e9b1d8a2f4c3e7a10");
     requests_post := fun _ _ => Return {| status_code := 503; reason := py "Service Unavailable" |};
     validate_email := has_at;
     repr_dict := fun _ => py "{...}" |}.

(** [{"name": "Asha", "email": "asha@example.com", "phone": 12345}]. *)
Definition body_phone_number : JSON :=
  JObj [ ("name", JStr (py "Asha")); ("email", JStr (py "asha@example.com"));
         ("phone", JNum (float_of_int 12345)) ].

(** [{"name": "Asha", "email": "asha@example.com", "country": null}]. *)
Definition body_country_null : JSON :=
  JObj [ ("name", JStr (py "Asha")); ("email", JStr (py "asha@example.com"));
         ("country", JNull) ].

(** A station without sessions that costs 500 a month to keep. *)
Definition roi_idle : ROICalcIn :=
  {| daily_sessions := float_of_int 0;
     avg_kwh_per_session := float_of_int 20;
     tariff_per_kwh := float_of_int 10;
     cost_per_kwh := float_of_int 6;
     station_cost := float_of_int 100000;
     opex_per_month := float_of_int 500 |}.

(** A payload whose [daily_sessions] is NaN. *)
Definition roi_nan : ROICalcIn :=
  {| daily_sessions := S754_nan;
     avg_kwh_per_session := float_of_int 20;
     tariff_per_kwh := float_of_int 10;
     cost_per_kwh := float_of_int 6;
     station_cost := float_of_int 100000;
     opex_per_month := float_of_int 0 |}.

(** Both providers configured; the Resend endpoint answers 503 and every
    other endpoint, Mailgun included, answers 200. *)
Definition resend_down : World :=
  {| environ := <["RESEND_API_KEY" := py "re_key"]>
                  (<["MAILGUN_API_KEY" := py "mg_key"]>
                     (<["MAILGUN_DOMAIN" := py "mg.example.com"]> ∅));
     import_db := Return None;
     create_document := fun _ _ _ => Return (py "665f0c1e9b1d8a2f4c3e7a10");
     requests_post :=
       fun req _ =>
         if startswith (py "https://api.resend.com/") (url req)
         then Return {| status_code := 503; reason := py "Service Unavailable" |}
         else Return answer_ok;
     validate_email := has_at;
     repr_dict := fun _ => py "{...}" |}.

End Sample.

(* ===================================================================== *)
(** * Properties of the ROI calculator *)
(* ===================================================================== *)

Lemma gt0_not_zero (x : float) : gt0 x = true -> is_zero x = false.
Proof. destruct x as [s | s | | s m e]; simpl; intros H; try reflexivity; discriminate H. Qed.

(** The division of [calculate_roi] is guarded: where it is evaluated the
    divisor is not zero. *)
Lemma truediv_guarded (x y : float) :
  gt0 y = true -> truediv x y = Return (SFdiv prec emax x y).
Proof. intros H. unfold truediv. rewrite (gt0_not_zero y H). reflexivity. Qed.

(** [calculate_roi] in closed form. *)
Lemma calculate_roi_eq (p : ROICalcIn) :
  calculate_roi p =
  Return {| monthly_revenue := Spec.revenue p;
            monthly_cost := Spec.cost p;
            monthly_profit := Spec.profit p;
            payback_months := Spec.payback p |}.
Proof.
  unfold calculate_roi, Spec.payback, Spec.revenue,
    Spec.cost, Spec.profit.
  fold (roi_profit p).
  destruct (gt0 (roi_profit p)) eqn:Hprofit; simpl; [ | reflexivity ].
  destruct (gt0 (station_cost p)) eqn:Hcost; simpl; [ | reflexivity ].
  rewrite (truediv_guarded _ _ Hprofit). reflexivity.
Qed.

(** C1. For every ROI input the route returns
    monthly_revenue = round(daily_sessions*30*avg_kwh_per_session*tariff_per_kwh, 2),
    monthly_cost = round(daily_sessions*30*avg_kwh_per_session*cost_per_kwh + opex_per_month, 2)
    and monthly_profit = round(revenue - (energy_cost + opex_per_month), 2),
    the rounding applied to the unrounded intermediates; and for
    daily_sessions=10, avg_kwh_per_session=20, tariff_per_kwh=10,
    cost_per_kwh=6, station_cost=100000, opex_per_month=0 the outputs are
    60000, 36000, 24000 and a payback of 4.17 months. *)
Theorem roi_outputs :
  (forall p : ROICalcIn, exists out,
      calculate_roi p = Return out
      /\ monthly_revenue out = Spec.revenue p
      /\ monthly_cost out = Spec.cost p
      /\ monthly_profit out = Spec.profit p)
  /\ calculate_roi Sample.roi_example =
     Return {| monthly_revenue := float_of_int 60000;
               monthly_cost := float_of_int 36000;
               monthly_profit := float_of_int 24000;
               payback_months := Some (float_of_decimal 417 2) |}.
Proof.
  split.
  - intros p. eexists. split; [ apply calculate_roi_eq | ]. simpl. auto.
  - vm_compute. reflexivity.
Qed.

(** C2, as stated, fails: with a profit of 0.003 a month the payback is
    present (33333333.33 months) while the returned monthly_profit is
    round(0.003, 2) = 0.0, which is not positive. *)
Lemma payback_present_with_zero_returned_profit :
  ~ Spec.payback_iff_returned_profit Sample.roi_thin_margin.
Proof.
  intros H.
  specialize (H _ (calculate_roi_eq Sample.roi_thin_margin)).
  destruct H as [H _].
  assert (Hs : is_Some (Spec.payback Sample.roi_thin_margin))
    by (vm_compute; eauto).
  destruct (H Hs) as [Hp _]. vm_compute in Hp. discriminate Hp.
Qed.

(** C2, amended. For every ROI input the payback_months that the handler
    [calculate_roi] returns (its ROICalcOut value, before the framework
    renders it as JSON) is present, that is not None, if and only if the
    unrounded profit (revenue minus monthly cost, before rounding) is > 0
    and station_cost > 0; when present it equals
    round(station_cost / profit, 2) on that unrounded profit. *)
Theorem payback_present_iff_unrounded_profit (p : ROICalcIn) :
  exists out,
    calculate_roi p = Return out
    /\ (is_Some (payback_months out)
        <-> gt0 (roi_profit p) = true /\ gt0 (station_cost p) = true)
    /\ (payback_months out = None
        \/ payback_months out
           = Some (round2 (SFdiv prec emax (station_cost p) (roi_profit p)))).
Proof.
  eexists. split; [ apply calculate_roi_eq | ]. simpl.
  unfold Spec.payback.
  destruct (gt0 (roi_profit p)), (gt0 (station_cost p)); simpl.
  - split; [ split; eauto | right; reflexivity ].
  - split; [ split; [ intros [x Hx]; discriminate Hx | intros [_ H]; discriminate H ]
           | left; reflexivity ].
  - split; [ split; [ intros [x Hx]; discriminate Hx | intros [H _]; discriminate H ]
           | left; reflexivity ].
  - split; [ split; [ intros [x Hx]; discriminate Hx | intros [H _]; discriminate H ]
           | left; reflexivity ].
Qed.

(** C3. [calculate_roi] returns for every ROI input -- zero, negative,
    infinite and NaN values included: the division station_cost / profit
    is evaluated only when profit > 0, where it cannot raise
    ZeroDivisionError, and nothing else in the handler can raise. *)
Theorem calculate_roi_never_raises (p : ROICalcIn) :
  (exists out, calculate_roi p = Return out)
  /\ (forall e, calculate_roi p <> Raise e)
  /\ (gt0 (roi_profit p) && gt0 (station_cost p) = true ->
      truediv (station_cost p) (roi_profit p)
      = Return (SFdiv prec emax (station_cost p) (roi_profit p))).
Proof.
  rewrite calculate_roi_eq. split; [ eauto | split ].
  - intros e H. discriminate H.
  - intros H. apply andb_true_iff in H as [H _]. apply truediv_guarded, H.
Qed.

(* ===================================================================== *)
(** * Properties of the e-mail dispatcher *)
(* ===================================================================== *)

(** A guarded provider call: whatever [requests.post] and
    [raise_for_status] do, the [try] ends normally with one call made. *)
Lemma guarded_post (w : World) (req : Request) (tr : trace) :
  try_except
    (do resp <- post w req; run lift (raise_for_status resp); ret tt)
    (fun _ => ret tt) tr
  = (Return tt, tr ++ [EvPost req]).
Proof.
  unfold try_except, bind, post, lift, ret.
  destruct (requests_post w req tr) as [resp | e]; [ | reflexivity ].
  destruct (raise_for_status resp) as [[] | e]; reflexivity.
Qed.

(** [send_auto_email] in closed form: it returns, and what it sends is
    what the selection policy says. *)
Lemma send_auto_email_eq (w : World) (to_email subject html : str) (tr : trace) :
  send_auto_email w to_email subject html tr
  = (Return tt, tr ++ Spec.dispatched w to_email subject html).
Proof.
  unfold send_auto_email, Spec.dispatched, Spec.dispatch_request,
    Spec.selected_provider, Spec.configured.
  destruct (getenv w "RESEND_API_KEY") as [[ | c key] | ] eqn:Hresend; simpl;
    try apply guarded_post;
    destruct (getenv w "MAILGUN_API_KEY") as [[ | c' key'] | ]; simpl;
    try (unfold try_except, ret; rewrite app_nil_r; reflexivity);
    destruct (getenv w "MAILGUN_DOMAIN") as [[ | c'' dom] | ]; simpl;
    try apply guarded_post;
    unfold try_except, ret; rewrite app_nil_r; reflexivity.
Qed.

Lemma resend_is_not_mailgun (domain : str) : resend_url <> mailgun_url domain.
Proof. unfold resend_url, mailgun_url. intros H. vm_compute in H. discriminate H. Qed.

(** C6. [send_auto_email] returns normally for every recipient, subject
    and HTML body and for every outcome of the provider call (an
    exception of [requests.post], a status that [raise_for_status]
    rejects); and when neither a Resend API key nor the Mailgun key and
    domain are configured it makes no network call. *)
Theorem send_auto_email_never_raises
  (w : World) (to_email subject html : str) (tr : trace) :
  (exists tr', send_auto_email w to_email subject html tr = (Return tt, tr'))
  /\ (Spec.configured w "RESEND_API_KEY" = false ->
      Spec.configured w "MAILGUN_API_KEY" && Spec.configured w "MAILGUN_DOMAIN" = false ->
      send_auto_email w to_email subject html tr = (Return tt, tr)).
Proof.
  rewrite send_auto_email_eq. split; [ eauto | ].
  intros Hresend Hmailgun.
  unfold Spec.dispatched, Spec.dispatch_request, Spec.selected_provider.
  rewrite Hresend, Hmailgun. simpl. rewrite app_nil_r. reflexivity.
Qed.

Lemma send_auto_email_never_raises_witness :
  send_auto_email Sample.bare_world (py "asha@example.com") (py "Hello") (py "<p>Hi</p>") []
  = (Return tt, []).
Proof.
  apply (send_auto_email_never_raises Sample.bare_world
           (py "asha@example.com") (py "Hello") (py "<p>Hi</p>") []);
    vm_compute; reflexivity.
Defined.

(** C7. The provider is chosen in a fixed priority order from the
    configuration alone: with a Resend API key configured the one call
    goes to the Resend endpoint (none to Mailgun); otherwise, with both a
    Mailgun API key and a Mailgun domain configured, the one call goes to
    the Mailgun endpoint of that domain; otherwise no call is made. *)
Theorem provider_selected_by_configuration
  (w : World) (to_email subject html : str) (tr : trace) :
  exists sent,
    send_auto_email w to_email subject html tr = (Return tt, tr ++ sent)
    /\ match Spec.selected_provider w with
       | Some Spec.Resend =>
           exists req, sent = [EvPost req]
                       /\ url req = resend_url
                       /\ (forall domain, url req <> mailgun_url domain)
       | Some Spec.Mailgun =>
           exists req, sent = [EvPost req]
                       /\ url req = mailgun_url (or_empty (getenv w "MAILGUN_DOMAIN"))
                       /\ auth req = Some (py "api", or_empty (getenv w "MAILGUN_API_KEY"))
       | None => sent = []
       end
    /\ Spec.selected_provider w
       = (if Spec.configured w "RESEND_API_KEY" then Some Spec.Resend
          else if Spec.configured w "MAILGUN_API_KEY" && Spec.configured w "MAILGUN_DOMAIN"
               then Some Spec.Mailgun
          else None).
Proof.
  exists (Spec.dispatched w to_email subject html).
  split; [ apply send_auto_email_eq | split; [ | reflexivity ] ].
  unfold Spec.dispatched, Spec.dispatch_request.
  destruct (Spec.selected_provider w) as [[ | ] | ].
  - eexists. split; [ reflexivity | ]. split; [ reflexivity | ].
    intros domain. simpl. apply resend_is_not_mailgun.
  - eexists. split; [ reflexivity | ]. split; reflexivity.
  - reflexivity.
Qed.

Lemma getenv_without_resend (w : World) (key : string) :
  key <> "RESEND_API_KEY" -> getenv (Spec.without_resend w) key = getenv w key.
Proof. intros H. unfold getenv. simpl. apply lookup_delete_ne. congruence. Qed.

Lemma getenv_default_without_resend (w : World) (key : string) (default : str) :
  key <> "RESEND_API_KEY" ->
  getenv_default (Spec.without_resend w) key default = getenv_default w key default.
Proof.
  intros H. unfold getenv_default. simpl.
  rewrite lookup_delete_ne by congruence. reflexivity.
Qed.

Lemma without_resend_unset (w : World) :
  getenv (Spec.without_resend w) "RESEND_API_KEY" = None.
Proof. unfold getenv. simpl. apply lookup_delete_eq. Qed.

Lemma url_resend_request (key from_email to_email subject html : str) :
  url (resend_request key from_email to_email subject html)
  = py "https://api.resend.com/emails".
Proof. unfold resend_request; cbn [url]; unfold resend_url; reflexivity. Qed.

Lemma url_mailgun_request (key domain from_email to_email subject html : str) :
  url (mailgun_request key domain from_email to_email subject html)
  = py "https://api.mailgun.net/v3/" ++ domain ++ py "/messages".
Proof. unfold mailgun_request; cbn [url]; unfold mailgun_url; reflexivity. Qed.

Lemma resend_url_literal : resend_url = py "https://api.resend.com/emails".
Proof. unfold resend_url. reflexivity. Qed.

Lemma mailgun_url_literal (domain : str) :
  mailgun_url domain = py "https://api.mailgun.net/v3/" ++ domain ++ py "/messages".
Proof. unfold mailgun_url. reflexivity. Qed.

(** C10. With a Resend API key configured, a Resend request that fails
    (it raises, or its answer has a status that is rejected) ends
    [send_auto_email] normally with that one call made and no attempt on
    the Mailgun endpoint, even when the Mailgun key and domain are
    configured as well and whatever the Mailgun endpoint would answer:
    the Mailgun call that the same configuration makes once the Resend
    key is taken out is not made.  Only requests to the Resend endpoint
    are supposed to fail. *)
Theorem no_fallback_after_resend_failure
  (w : World) (to_email subject html : str) (tr : trace) :
  Spec.configured w "RESEND_API_KEY" = true ->
  Spec.configured w "MAILGUN_API_KEY" && Spec.configured w "MAILGUN_DOMAIN" = true ->
  (forall req, url req = py "https://api.resend.com/emails" ->
               Spec.request_fails w req tr) ->
  exists resend mailgun,
    send_auto_email w to_email subject html tr = (Return tt, tr ++ [EvPost resend])
    /\ url resend = py "https://api.resend.com/emails"
    /\ send_auto_email (Spec.without_resend w) to_email subject html tr
       = (Return tt, tr ++ [EvPost mailgun])
    /\ url mailgun = py "https://api.mailgun.net/v3/"
                       ++ or_empty (getenv w "MAILGUN_DOMAIN") ++ py "/messages"
    /\ auth mailgun = Some (py "api", or_empty (getenv w "MAILGUN_API_KEY"))
    /\ resend <> mailgun
    /\ (forall domain,
           url resend <> py "https://api.mailgun.net/v3/" ++ domain ++ py "/messages").
Proof.
  intros Hresend Hmailgun Hfails.
  unfold Spec.configured in Hresend, Hmailgun.
  apply andb_true_iff in Hmailgun as [Hkey Hdomain].
  set (from_email := getenv_default w "FROM_EMAIL" (py "noreply@apluscharge.com")).
  exists (resend_request (or_empty (getenv w "RESEND_API_KEY")) from_email
            to_email subject html),
         (mailgun_request (or_empty (getenv w "MAILGUN_API_KEY"))
            (or_empty (getenv w "MAILGUN_DOMAIN")) from_email to_email subject html).
  split_and!.
  - (* the call is made, it fails, and the except clause ends the function *)
    unfold send_auto_email. fold from_email.
    destruct (getenv w "RESEND_API_KEY") as [[ | c key] | ]; try discriminate Hresend.
    unfold or_empty.
    specialize (Hfails _ (url_resend_request (c :: key) from_email to_email subject html)).
    unfold Spec.request_fails in Hfails.
    unfold try_except, bind, post, lift, ret.
    destruct (requests_post w _ tr) as [resp | e]; [ | reflexivity ].
    destruct Hfails as [e He]. rewrite He. reflexivity.
  - apply url_resend_request.
  - rewrite send_auto_email_eq.
    unfold Spec.dispatched, Spec.dispatch_request, Spec.selected_provider,
      Spec.configured.
    rewrite without_resend_unset, !getenv_without_resend by discriminate.
    rewrite getenv_default_without_resend by discriminate.
    rewrite Hkey, Hdomain. reflexivity.
  - apply url_mailgun_request.
  - unfold mailgun_request; cbn [auth]; reflexivity.
  - intros H. apply (f_equal auth) in H. discriminate H.
  - intros domain. rewrite url_resend_request, <- resend_url_literal, <- mailgun_url_literal.
    apply resend_is_not_mailgun.
Qed.

Lemma no_fallback_after_resend_failure_witness :
  exists resend mailgun,
    send_auto_email Sample.resend_down (py "asha@example.com") (py "Hello")
      (py "<p>Hi</p>") []
    = (Return tt, [] ++ [EvPost resend])
    /\ url resend = py "https://api.resend.com/emails"
    /\ send_auto_email (Spec.without_resend Sample.resend_down)
         (py "asha@example.com") (py "Hello") (py "<p>Hi</p>") []
       = (Return tt, [] ++ [EvPost mailgun])
    /\ url mailgun = py "https://api.mailgun.net/v3/"
                       ++ or_empty (getenv Sample.resend_down "MAILGUN_DOMAIN")
                       ++ py "/messages"
    /\ auth mailgun
       = Some (py "api", or_empty (getenv Sample.resend_down "MAILGUN_API_KEY"))
    /\ resend <> mailgun
    /\ (forall domain,
           url resend <> py "https://api.mailgun.net/v3/" ++ domain ++ py "/messages").
Proof.
  apply (no_fallback_after_resend_failure Sample.resend_down).
  - vm_compute; reflexivity.
  - vm_compute; reflexivity.
  - intros req Hurl. unfold Spec.request_fails, Sample.resend_down.
    cbn [requests_post]. rewrite Hurl. vm_compute. eexists. reflexivity.
Defined.

(* ===================================================================== *)
(** * Properties of lead capture *)
(* ===================================================================== *)

(** The lead handler in closed form: one write, then -- if it succeeded --
    the confirmation mail and, with [NOTIFY_EMAIL] configured, the
    internal one. *)
Lemma create_lead_eq (w : World) (lead : LeadIn) (tr : trace) :
  exists mails,
    create_lead w lead tr
    = match create_document w (py "lead") (model_dump lead) tr with
      | Return lead_id =>
          (Ok [("status", py "success"); ("id", lead_id)],
           (tr ++ [EvCreateDocument (py "lead") (model_dump lead)]) ++ mails)
      | Raise e =>
          (HTTPException 500 (exn_str e),
           tr ++ [EvCreateDocument (py "lead") (model_dump lead)])
      end.
Proof.
  unfold create_lead, create_lead_try, bind, call_create_document.
  destruct (create_document w (py "lead") (model_dump lead) tr) as [lead_id | e].
  - rewrite send_auto_email_eq.
    destruct (getenv w "NOTIFY_EMAIL") as [[ | c notify] | ].
    + eexists. unfold ret. reflexivity.
    + rewrite send_auto_email_eq. unfold ret. rewrite <- app_assoc.
      eexists. reflexivity.
    + eexists. unfold ret. reflexivity.
  - exists []. reflexivity.
Qed.

Lemma validate_LeadIn_ext (w w' : World) (body : JSON) :
  validate_email w = validate_email w' ->
  validate_LeadIn w body = validate_LeadIn w' body.
Proof.
  intros H. destruct body; try reflexivity.
  unfold validate_LeadIn, validation_errors, required_email. rewrite H. reflexivity.
Qed.

Lemma post_api_leads_valid (w : World) (body : JSON) (lead : LeadIn) (tr : trace) :
  validate_LeadIn w body = inr lead ->
  fst (post_api_leads w body tr)
  = Spec.lead_response (create_document w (py "lead") (model_dump lead) tr).
Proof.
  intros Hvalid. unfold post_api_leads. rewrite Hvalid.
  destruct (create_lead_eq w lead tr) as [mails ->].
  destruct (create_document w (py "lead") (model_dump lead) tr); reflexivity.
Qed.

(** C4, as stated, fails: the body [{"name": "", "email":
    "asha@example.com"}] has an empty name, and the route stores the lead
    and answers 200. *)
Lemma empty_name_is_accepted : ~ Spec.invalid_leads_rejected.
Proof.
  intros H.
  destruct (H Sample.bare_world Sample.body_empty_name
              (or_introl (or_intror eq_refl)) []) as (errors & _ & Hresp).
  vm_compute in Hresp. discriminate Hresp.
Qed.

(** C4, amended. For every lead payload whose name is missing (absent, or
    not a string) or whose email is not a syntactically valid email
    address, the route answers with a validation error (422) made before
    the handler runs, naming at least one field, and makes no persistence
    write and no notification call.  (A name that is the empty string is
    a valid name.) *)
Theorem invalid_lead_rejected (w : World) (body : JSON) :
  Spec.name_missing body \/ Spec.email_malformed w body ->
  Spec.rejected_without_effect w body.
Proof.
  intros H tr. unfold post_api_leads.
  destruct body as [ | b | x | s | l | o];
    try (exists ["body"]; split; [ discriminate | reflexivity ]).
  simpl in H. unfold validate_LeadIn.
  destruct (required_str "name" o) as [nm | ] eqn:Hname.
  - destruct H as [H | H]; [ discriminate H | ].
    rewrite H. simpl. eexists. split; [ | reflexivity ].
    unfold validation_errors. rewrite Hname, H. simpl. discriminate.
  - simpl. eexists. split; [ | reflexivity ].
    unfold validation_errors. rewrite Hname. simpl. discriminate.
Qed.

Lemma invalid_lead_rejected_witness :
  Spec.rejected_without_effect Sample.store_down Sample.body_no_name.
Proof.
  apply (invalid_lead_rejected Sample.store_down Sample.body_no_name).
  left. vm_compute. reflexivity.
Defined.

(** C5. For every valid lead payload the route answers
    {status: "success", id: <the identifier the store returned>} exactly
    when the write succeeds, and a 500 whose detail is the text of the
    exception exactly when the write raises; neither the e-mail
    configuration nor the outcome of the e-mail attempts changes this
    answer. *)
Theorem lead_answer_decided_by_store
  (w : World) (body : JSON) (lead : LeadIn) (tr : trace) :
  validate_LeadIn w body = inr lead ->
  (forall lead_id,
      create_document w (py "lead") (model_dump lead) tr = Return lead_id
      <-> fst (post_api_leads w body tr)
          = Success [("status", py "success"); ("id", lead_id)])
  /\ (forall e,
         create_document w (py "lead") (model_dump lead) tr = Raise e ->
         fst (post_api_leads w body tr) = Error 500 (exn_str e))
  /\ (forall detail,
         fst (post_api_leads w body tr) = Error 500 detail ->
         exists e, create_document w (py "lead") (model_dump lead) tr = Raise e
                   /\ detail = exn_str e)
  /\ (forall w', Spec.same_store w w' ->
                 fst (post_api_leads w' body tr) = fst (post_api_leads w body tr)).
Proof.
  intros Hvalid. rewrite (post_api_leads_valid w body lead tr Hvalid).
  repeat split.
  - intros ->. reflexivity.
  - destruct (create_document w (py "lead") (model_dump lead) tr); simpl;
      intros H; [ injection H as -> | discriminate ]; reflexivity.
  - intros e ->. reflexivity.
  - intros detail.
    destruct (create_document w (py "lead") (model_dump lead) tr) as [i | e]; simpl;
      intros H; [ discriminate | ].
    injection H as <-. eauto.
  - intros w' [Hstore Hemail].
    rewrite (post_api_leads_valid w' body lead tr).
    + rewrite <- Hstore. reflexivity.
    + rewrite <- (validate_LeadIn_ext w w' body Hemail). exact Hvalid.
Qed.

Lemma lead_answer_decided_by_store_witness :
  fst (post_api_leads Sample.network_down Sample.body_asha [])
  = fst (post_api_leads Sample.bare_world Sample.body_asha []).
Proof.
  apply (lead_answer_decided_by_store Sample.bare_world Sample.body_asha
           Sample.lead_asha []).
  - vm_compute. reflexivity.
  - split; reflexivity.
Defined.

(* ===================================================================== *)
(** * Properties of the diagnostic route *)
(* ===================================================================== *)

Lemma slice_to_length (n : nat) (s : str) : (length (slice_to n s) <= n)%nat.
Proof. unfold slice_to. rewrite length_take. lia. Qed.

(** C8, as stated, fails: without a database handle the fields
    database_url and database_name are None, not strings. *)
Lemma test_fields_null_without_database : ~ Spec.test_fields_strings.
Proof.
  intros H. destruct (H Sample.bare_world) as (r & Hr & [u Hu] & _).
  vm_compute in Hr. injection Hr as <-. discriminate Hu.
Qed.

(** The goals on one field of the response: an equation, a bound, or an
    equivalence both sides of which hold or both fail. *)
Ltac both_hold := split; intros _; eauto.
Ltac both_fail :=
  split; [ intros [? Hx]; discriminate Hx
         | intros Hy;
           repeat match goal with
                  | H : ex _ |- _ => destruct H
                  | H : _ /\ _ |- _ => destruct H
                  end; congruence ].
Ltac field_goal :=
  first [ reflexivity | lia | rewrite length_take; lia
        | solve [ both_hold ] | solve [ both_fail ] ].
Ltac error_rendered prefix e place :=
  right; exists prefix, e, (slice_to 80 (exn_str e));
  split_and!; [ place; reflexivity | reflexivity | reflexivity | apply slice_to_length ].

(** C8, amended. [GET /test] never raises, whatever the database module
    does, and its response has all six fields: backend, database and
    connection_status are strings, collections is a list of at most 10
    strings, and database_url and database_name are strings or None --
    database_url is a string exactly when the module yields a database
    handle, database_name exactly when moreover the name of the handle
    can be read.  A failure of a diagnostic step is rendered in the
    database field as a fixed prefix followed by the text of the
    exception cut to at most 80 characters. *)
Theorem test_database_never_raises (w : World) :
  exists r,
    test_database w = Return r
    /\ backend r = py "✅ Running"
    /\ database r = Spec.database_text w
    /\ (In (database r) Spec.database_states
        \/ exists prefix e text,
             In prefix Spec.error_prefixes
             /\ text = slice_to 80 (exn_str e)
             /\ database r = prefix ++ text
             /\ (length text <= 80)%nat)
    /\ (is_Some (database_url r) <-> exists db, import_db w = Return (Some db))
    /\ (is_Some (database_name r)
        <-> exists db name, import_db w = Return (Some db) /\ db_name db = Return name)
    /\ (length (collections r) <= 10)%nat.
Proof.
  unfold test_database, test_database_body, Spec.database_text,
    try_except, bind, lift, modify.
  destruct (import_db w) as [[db | ] | e]; simpl.
  - destruct (db_name db) as [nm | e] eqn:Hname; simpl.
    + destruct (list_collection_names db) as [cs | e]; simpl.
      * eexists. split; [ reflexivity | ]. simpl. split_and!; try field_goal.
        left. right. left. reflexivity.
      * eexists. split; [ reflexivity | ]. simpl. split_and!; try field_goal.
        error_rendered (py "⚠️ Connected but Error: ") e ltac:(right; left).
    + eexists. split; [ reflexivity | ]. simpl. split_and!; try field_goal.
      error_rendered (py "❌ Error: ") e ltac:(left).
  - eexists. split; [ reflexivity | ]. simpl. split_and!; try field_goal.
    left. left. reflexivity.
  - eexists. split; [ reflexivity | ]. simpl. split_and!; try field_goal.
    error_rendered (py "❌ Error: ") e ltac:(left).
Qed.

(* ===================================================================== *)
(** * Properties of the confirmation mail *)
(* ===================================================================== *)

Section Occurrences.

Implicit Types p s a b : str.

Lemma startswith_self p : startswith p p = true.
Proof. induction p as [ | c p IH]; simpl; [ | rewrite N.eqb_refl ]; auto. Qed.

Lemma startswith_app_l p s b : startswith p s = true -> startswith p (s ++ b) = true.
Proof.
  revert s. induction p as [ | c p IH]; intros [ | d s]; simpl; auto; try discriminate.
  intros H. apply andb_true_iff in H as [-> H]. simpl. auto.
Qed.

Lemma contains_self p : contains p p = true.
Proof. destruct p; simpl; [ reflexivity | ]. rewrite N.eqb_refl, startswith_self. reflexivity. Qed.

Lemma contains_app_l p s b : contains p s = true -> contains p (s ++ b) = true.
Proof.
  induction s as [ | c s IH]; simpl.
  - rewrite orb_false_r. destruct p; [ | discriminate ]. intros _. destruct b; reflexivity.
  - intros H. apply orb_true_iff in H as [H | H].
    + change (c :: s ++ b) with ((c :: s) ++ b).
      rewrite (startswith_app_l _ _ b H). reflexivity.
    + rewrite (IH H). apply orb_true_r.
Qed.

Lemma contains_app_r p a s : contains p s = true -> contains p (a ++ s) = true.
Proof.
  intros H. induction a as [ | c a IH]; simpl; [ exact H | ].
  rewrite IH. apply orb_true_r.
Qed.

Lemma clash_startswith p s b : clash p s = true -> startswith p (s ++ b) = false.
Proof.
  revert s. induction p as [ | c p IH]; intros [ | d s]; simpl; try discriminate.
  destruct (c =? d)%N; simpl; auto.
Qed.

(** A stretch of text that the pattern clashes with everywhere can be
    skipped when looking for the pattern. *)
Lemma contains_skip p s b : clear_of p s = true -> contains p (s ++ b) = contains p b.
Proof.
  induction s as [ | c s IH]; simpl; [ reflexivity | ].
  intros H. apply andb_true_iff in H as [Hc Hs].
  change (c :: s ++ b) with ((c :: s) ++ b).
  rewrite (clash_startswith _ _ b Hc), (IH Hs). reflexivity.
Qed.

(** A pattern that opens with [<] clashes everywhere with a text that
    has no [<]. *)
Lemma no_markup_clear p s : Spec.no_markup s -> clear_of (60%N :: p) s = true.
Proof.
  induction 1 as [ | c s Hc _ IH]; cbn [clear_of clash]; [ reflexivity | ].
  destruct (N.eqb_spec 60 c) as [Heq | _]; [ exfalso; apply Hc; symmetry; exact Heq | exact IH ].
Qed.

End Occurrences.

(** Finds a pattern that is one of the pieces a text is put together
    from. *)
Ltac occurs :=
  lazymatch goal with
  | |- contains ?p ?p = true => apply contains_self
  | |- contains _ (_ ++ _) = true =>
      first [ apply contains_app_l; occurs | apply contains_app_r; occurs ]
  end.

(** Skips the pieces of a text a pattern clashes with: the literal ones
    by evaluation, the texts of the lead because they have no [<]. *)
Ltac skip_pieces :=
  repeat (rewrite contains_skip
            by first [ vm_compute; reflexivity
                     | apply no_markup_clear; assumption ]).

Lemma embeds_name_and_email (lead : LeadIn) :
  contains (name lead) (html_body lead) = true
  /\ contains (email lead) (html_body lead) = true
  /\ contains (city_state_line lead) (html_body lead) = true.
Proof. unfold html_body, line. split_and!; occurs. Qed.

Lemma embeds_phone_line (lead : LeadIn) :
  truthy_opt (phone lead) = true ->
  contains (py "<li>Phone: " ++ or_empty (phone lead) ++ py "</li>") (html_body lead)
  = true.
Proof.
  unfold html_body, line, phone_line, or_empty, truthy_opt, truthy.
  destruct (phone lead) as [[ | c p] | ]; cbv beta iota; try discriminate.
  intros _. occurs.
Qed.

Lemma embeds_company_line (lead : LeadIn) :
  truthy_opt (company lead) = true ->
  contains (py "<li>Company: " ++ or_empty (company lead) ++ py "</li>") (html_body lead)
  = true.
Proof.
  unfold html_body, line, company_line, or_empty, truthy_opt, truthy.
  destruct (company lead) as [[ | c p] | ]; cbv beta iota; try discriminate.
  intros _. occurs.
Qed.

(** Puts the body in the form piece ++ (piece ++ ...). *)
Ltac pieces :=
  unfold html_body, line, city_state_line;
  rewrite <- ?app_assoc.

Lemma clash_app p s b : clash p s = true -> clash p (s ++ b) = true.
Proof.
  revert s. induction p as [ | c p IH]; intros [ | d s]; simpl; try discriminate.
  destruct (c =? d)%N; auto.
Qed.

Lemma clear_of_app p a b :
  clear_of p a = true -> clear_of p b = true -> clear_of p (a ++ b) = true.
Proof.
  intros Ha Hb. induction a as [ | c a IH]; simpl; [ exact Hb | ].
  simpl in Ha. apply andb_true_iff in Ha as [Hc Ha].
  change (c :: a ++ b) with ((c :: a) ++ b).
  rewrite (clash_app _ _ b Hc), (IH Ha). reflexivity.
Qed.

(** The phone line has no place where the opening of another line could
    start. *)
Lemma phone_line_clear (lead : LeadIn) :
  Spec.no_markup (or_empty (phone lead)) ->
  clear_of Spec.company_marker (phone_line lead) = true.
Proof.
  unfold phone_line, or_empty.
  destruct (phone lead) as [[ | c p] | ]; intros H; try reflexivity.
  repeat apply clear_of_app;
    first [ vm_compute; reflexivity | apply no_markup_clear; assumption ].
Qed.

Lemma company_line_clear (lead : LeadIn) :
  Spec.no_markup (or_empty (company lead)) ->
  clear_of Spec.phone_marker (company_line lead) = true.
Proof.
  unfold company_line, or_empty.
  destruct (company lead) as [[ | c p] | ]; intros H; try reflexivity.
  repeat apply clear_of_app;
    first [ vm_compute; reflexivity | apply no_markup_clear; assumption ].
Qed.

Lemma phone_marker_iff (lead : LeadIn) :
  Spec.plain_text lead ->
  contains Spec.phone_marker (html_body lead) = truthy_opt (phone lead).
Proof.
  intros (Hn & He & Hp & Hc & Hci & Hst).
  pose proof (company_line_clear lead Hc) as Hline.
  destruct (truthy_opt (phone lead)) eqn:Hphone.
  - clear Hline. unfold html_body, line, phone_line.
    destruct (phone lead) as [[ | c p] | ]; try discriminate Hphone.
    unfold Spec.phone_marker. occurs.
  - assert (Hnone : phone_line lead = []).
    { unfold phone_line. destruct (phone lead) as [[ | c p] | ];
        try reflexivity; discriminate Hphone. }
    pieces. rewrite Hnone.
    repeat (rewrite contains_skip
              by first [ assumption | vm_compute; reflexivity
                       | apply no_markup_clear; assumption ]).
    reflexivity.
Qed.

Lemma company_marker_iff (lead : LeadIn) :
  Spec.plain_text lead ->
  contains Spec.company_marker (html_body lead) = truthy_opt (company lead).
Proof.
  intros (Hn & He & Hp & Hc & Hci & Hst).
  pose proof (phone_line_clear lead Hp) as Hline.
  destruct (truthy_opt (company lead)) eqn:Hcompany.
  - clear Hline. unfold html_body, line, company_line.
    destruct (company lead) as [[ | c p] | ]; try discriminate Hcompany.
    unfold Spec.company_marker. occurs.
  - assert (Hnone : company_line lead = []).
    { unfold company_line. destruct (company lead) as [[ | c p] | ];
        try reflexivity; discriminate Hcompany. }
    pieces. rewrite Hnone.
    repeat (rewrite contains_skip
              by first [ assumption | vm_compute; reflexivity
                       | apply no_markup_clear; assumption ]).
    reflexivity.
Qed.

(** C9, as stated, fails: for the lead [{"name": "Asha", "email":
    "asha@example.com"}], with neither city nor state, the body has the
    line [<li>City/State:  </li>]. *)
Lemma city_state_line_without_city_or_state :
  ~ (forall lead, Spec.city_state_only_when_set lead).
Proof.
  intros H. specialize (H Sample.lead_asha).
  unfold Spec.city_state_only_when_set in H.
  assert (Hin : contains Spec.city_state_marker (html_body Sample.lead_asha) = true)
    by (vm_compute; reflexivity).
  specialize (H Hin). vm_compute in H. discriminate H.
Qed.

(** C9, amended. For every valid lead the HTML body of the confirmation
    mail embeds the name and the email of the lead unconditionally; it
    embeds the phone line when phone is set (not None, not empty) and the
    company line when company is set, and -- for a lead whose texts have
    no [<] -- it has the opening of the phone line only when phone is set
    and the opening of the company line only when company is set; the
    City/State line is embedded always, with the city and the state each
    shown when set and left empty otherwise. *)
Theorem confirmation_mail_embeds (lead : LeadIn) :
  contains (name lead) (html_body lead) = true
  /\ contains (email lead) (html_body lead) = true
  /\ (truthy_opt (phone lead) = true ->
      contains (py "<li>Phone: " ++ or_empty (phone lead) ++ py "</li>")
        (html_body lead) = true)
  /\ (truthy_opt (company lead) = true ->
      contains (py "<li>Company: " ++ or_empty (company lead) ++ py "</li>")
        (html_body lead) = true)
  /\ contains (py "<li>City/State: " ++ or_empty (city lead) ++ py " "
                 ++ or_empty (state lead) ++ py "</li>") (html_body lead) = true
  /\ (Spec.plain_text lead ->
      contains Spec.phone_marker (html_body lead) = truthy_opt (phone lead)
      /\ contains Spec.company_marker (html_body lead) = truthy_opt (company lead)).
Proof.
  destruct (embeds_name_and_email lead) as (Hname & Hemail & Hcity).
  split_and!; auto using embeds_phone_line, embeds_company_line,
    phone_marker_iff, company_marker_iff.
Qed.

Lemma plain_sample : Spec.plain_text Sample.lead_ravi.
Proof.
  unfold Spec.plain_text, Spec.no_markup.
  split_and!; vm_compute;
    repeat (constructor; [ discriminate | ]); constructor.
Defined.

Lemma confirmation_mail_embeds_witness :
  contains (py "<li>Phone: +91 98200 00000</li>") (html_body Sample.lead_ravi) = true
  /\ contains Spec.phone_marker (html_body Sample.lead_ravi) = true
  /\ contains Spec.company_marker (html_body Sample.lead_ravi) = false.
Proof.
  pose proof (confirmation_mail_embeds Sample.lead_ravi) as (_ & _ & Hphone & _ & _ & Honly).
  split.
  - apply Hphone. vm_compute. reflexivity.
  - apply (Honly plain_sample).
Defined.

Lemma calculate_roi_never_raises_witness :
  truediv (station_cost Sample.roi_example) (roi_profit Sample.roi_example)
  = Return (SFdiv prec emax (station_cost Sample.roi_example)
              (roi_profit Sample.roi_example)).
Proof.
  apply (calculate_roi_never_raises Sample.roi_example).
  vm_compute. reflexivity.
Defined.

(* ===================================================================== *)
(** * Further properties of the ROI calculator *)
(* ===================================================================== *)

(** Rounding to the format keeps the sign it is given. *)
Lemma binary_round_aux_sign (s : bool) (m e : Z) (l : location) :
  Spec.sign_bit (binary_round_aux prec emax s m e l) = Some s
  \/ binary_round_aux prec emax s m e l = S754_nan.
Proof.
  unfold binary_round_aux.
  destruct (shr_fexp prec emax m e l) as [mrs' e'].
  destruct (shr_fexp prec emax _ e' loc_Exact) as [mrs'' e''].
  destruct (shr_m mrs'') as [ | q | q]; simpl; auto.
  destruct (e'' <=? emax - prec); simpl; auto.
Qed.

Lemma SFdiv_finite_sign (sx sy : bool) (mx my : positive) (ex ey : Z) :
  Spec.sign_bit (SFdiv prec emax (S754_finite sx mx ex) (S754_finite sy my ey))
  = Some (xorb sx sy)
  \/ SFdiv prec emax (S754_finite sx mx ex) (S754_finite sy my ey) = S754_nan.
Proof.
  unfold SFdiv.
  destruct (SFdiv_core_binary prec emax (Z.pos mx) ex (Z.pos my) ey) as [[mz ez] lz].
  apply binary_round_aux_sign.
Qed.

(** [round(x, 2)] keeps the sign of [x], minus zero included. *)
Lemma round2_sign (x : float) :
  Spec.sign_bit (round2 x) = Spec.sign_bit x \/ round2 x = S754_nan.
Proof.
  destruct x as [s | s | | s m e]; try (left; reflexivity).
  unfold round2. cbv zeta.
  match goal with
  | |- context [match ?k with Z0 => _ | Zpos _ => _ | Zneg _ => _ end] =>
      destruct k as [ | kp | kp]; try (left; reflexivity)
  end.
  destruct (SFdiv_finite_sign s false kp 100 0 0) as [H | H].
  - left. rewrite H. destruct s; reflexivity.
  - right. exact H.
Qed.

Lemma gt0_sign (x : float) : gt0 x = true <-> Spec.sign_bit x = Some false /\ is_zero x = false.
Proof.
  destruct x as [[ | ] | [ | ] | | [ | ] m e]; simpl; split;
    try discriminate; try tauto; try (intros [H1 H2]; discriminate).
Qed.

Lemma round2_zero_iff_class (x : float) : is_zero (round2 x) = false -> is_zero x = false.
Proof. destruct x; simpl; auto. Qed.

(** Rounding never makes a positive amount of one that is not. *)
Lemma gt0_round2 (x : float) : gt0 (round2 x) = true -> gt0 x = true.
Proof.
  intros H. apply gt0_sign in H as [Hs Hz]. apply gt0_sign.
  split; [ | apply round2_zero_iff_class, Hz ].
  destruct (round2_sign x) as [H | H]; [ congruence | ].
  rewrite H in Hs. discriminate Hs.
Qed.

(** X1. Where the response shows a positive monthly_profit and the
    station cost is positive, the payback is present: rounding cannot
    turn a loss or a zero profit into a positive amount. *)
Theorem positive_returned_profit_has_payback (p : ROICalcIn) (out : ROICalcOut) :
  calculate_roi p = Return out ->
  gt0 (monthly_profit out) = true ->
  gt0 (station_cost p) = true ->
  is_Some (payback_months out).
Proof.
  rewrite calculate_roi_eq. intros Hout Hprofit Hcost.
  injection Hout as <-. simpl in *.
  unfold Spec.payback. unfold Spec.profit in Hprofit.
  apply gt0_round2 in Hprofit. fold (roi_profit p) in Hprofit.
  rewrite Hprofit, Hcost. simpl. eauto.
Qed.

Lemma positive_returned_profit_has_payback_witness :
  is_Some (Spec.payback Sample.roi_example).
Proof.
  apply (positive_returned_profit_has_payback Sample.roi_example
           {| monthly_revenue := Spec.revenue Sample.roi_example;
              monthly_cost := Spec.cost Sample.roi_example;
              monthly_profit := Spec.profit Sample.roi_example;
              payback_months := Spec.payback Sample.roi_example |}).
  - apply calculate_roi_eq.
  - vm_compute. reflexivity.
  - vm_compute. reflexivity.
Defined.

Lemma gt0_sign_false (x : float) : gt0 x = true -> Spec.sign_bit x = Some false.
Proof. intros H. apply gt0_sign in H as [H _]. exact H. Qed.

Lemma lt0_sign (x : float) : Spec.sign_bit x <> Some true -> Spec.lt0 x = false.
Proof.
  destruct x as [[ | ] | [ | ] | | [ | ] m e]; simpl; intros H;
    try reflexivity; contradiction H; reflexivity.
Qed.

(** The quotient of two positive floats has no minus sign. *)
Lemma truediv_positive_sign (x y : float) :
  gt0 x = true -> gt0 y = true ->
  Spec.sign_bit (SFdiv prec emax x y) <> Some true.
Proof.
  intros Hx Hy.
  destruct x as [sx | sx | | sx mx ex]; try discriminate Hx;
    destruct y as [sy | sy | | sy my ey]; try discriminate Hy;
    apply gt0_sign_false in Hx; apply gt0_sign_false in Hy;
    injection Hx as ->; injection Hy as ->; try (simpl; discriminate).
  destruct (SFdiv_finite_sign false false mx my ex ey) as [H | H];
    rewrite H; simpl; discriminate.
Qed.

(** X2. A payback that is present is never negative: it is a positive
    number, zero, an infinity, or NaN (an infinite profit against an
    infinite cost), never below zero and never minus zero. *)
Theorem payback_never_negative (p : ROICalcIn) (out : ROICalcOut) (v : float) :
  calculate_roi p = Return out ->
  payback_months out = Some v ->
  Spec.lt0 v = false /\ Spec.sign_bit v <> Some true.
Proof.
  rewrite calculate_roi_eq. intros Hout Hv. injection Hout as <-. simpl in Hv.
  unfold Spec.payback in Hv.
  destruct (gt0 (roi_profit p)) eqn:Hprofit; [ | discriminate Hv ].
  destruct (gt0 (station_cost p)) eqn:Hcost; [ | discriminate Hv ].
  simpl in Hv. injection Hv as <-.
  assert (Hsign : Spec.sign_bit
                    (round2 (SFdiv prec emax (station_cost p) (roi_profit p)))
                  <> Some true).
  { pose proof (truediv_positive_sign _ _ Hcost Hprofit) as Hq.
    destruct (round2_sign (SFdiv prec emax (station_cost p) (roi_profit p)))
      as [H | H]; rewrite H; [ exact Hq | discriminate ]. }
  split; [ apply lt0_sign, Hsign | exact Hsign ].
Qed.

Lemma payback_never_negative_witness :
  Spec.lt0 (float_of_decimal 417 2) = false
  /\ Spec.sign_bit (float_of_decimal 417 2) <> Some true.
Proof.
  apply (payback_never_negative Sample.roi_example
           {| monthly_revenue := float_of_int 60000;
              monthly_cost := float_of_int 36000;
              monthly_profit := float_of_int 24000;
              payback_months := Some (float_of_decimal 417 2) |}).
  - vm_compute. reflexivity.
  - reflexivity.
Defined.

Lemma fmul_nan_l (y : float) : fmul S754_nan y = S754_nan.
Proof. reflexivity. Qed.

Lemma fmul_nan_r (x : float) : fmul x S754_nan = S754_nan.
Proof. destruct x; reflexivity. Qed.

Lemma is_nan_inv (x : float) : Spec.is_nan x = true -> x = S754_nan.
Proof. destruct x; simpl; intros H; try discriminate H; reflexivity. Qed.

(** X3. A NaN in daily_sessions or in avg_kwh_per_session does not raise:
    the three amounts of the response are NaN and the payback is
    absent. *)
Theorem nan_sessions_give_nan (p : ROICalcIn) :
  Spec.is_nan (daily_sessions p) || Spec.is_nan (avg_kwh_per_session p) = true ->
  calculate_roi p =
  Return {| monthly_revenue := S754_nan; monthly_cost := S754_nan;
            monthly_profit := S754_nan; payback_months := None |}.
Proof.
  intros H. rewrite calculate_roi_eq.
  assert (Hsold : fmul (fmul (daily_sessions p) (float_of_int 30))
                    (avg_kwh_per_session p) = S754_nan).
  { apply orb_true_iff in H as [H | H]; apply is_nan_inv in H; rewrite H.
    - reflexivity.
    - apply fmul_nan_r. }
  unfold Spec.revenue, Spec.cost, Spec.profit, Spec.payback, roi_profit.
  cbv zeta. rewrite Hsold. reflexivity.
Qed.

Lemma nan_sessions_give_nan_witness :
  calculate_roi Sample.roi_nan =
  Return {| monthly_revenue := S754_nan; monthly_cost := S754_nan;
            monthly_profit := S754_nan; payback_months := None |}.
Proof. apply (nan_sessions_give_nan Sample.roi_nan). reflexivity. Defined.

Lemma is_zero_inv (x : float) : is_zero x = true -> exists s, x = S754_zero s.
Proof. destruct x; simpl; intros H; try discriminate H; eauto. Qed.

Lemma fmul_zero_l (x y : float) :
  is_zero x = true -> Spec.is_finite y = true -> is_zero (fmul x y) = true.
Proof.
  intros Hx Hy. apply is_zero_inv in Hx as [s ->].
  destruct y; try discriminate Hy; reflexivity.
Qed.

(** Nothing earned against a cost that is not negative leaves no
    profit. *)
Lemma idle_profit (s1 s2 : bool) (opex : float) :
  Spec.lt0 opex = false ->
  gt0 (fsub (S754_zero s1) (fadd (S754_zero s2) opex)) = false.
Proof.
  destruct opex as [[ | ] | [ | ] | | [ | ] m e], s1, s2; simpl;
    intros H; try reflexivity; discriminate H.
Qed.

(** X4. A station without sessions (daily_sessions zero, the other rates
    finite) and with a monthly opex that is not negative has a revenue of
    zero, no positive profit and no payback. *)
Theorem idle_station_no_payback (p : ROICalcIn) :
  is_zero (daily_sessions p) = true ->
  Spec.is_finite (avg_kwh_per_session p) = true ->
  Spec.is_finite (tariff_per_kwh p) = true ->
  Spec.is_finite (cost_per_kwh p) = true ->
  Spec.lt0 (opex_per_month p) = false ->
  exists out,
    calculate_roi p = Return out
    /\ is_zero (monthly_revenue out) = true
    /\ gt0 (monthly_profit out) = false
    /\ payback_months out = None.
Proof.
  intros Hidle Havg Htariff Hcost Hopex.
  rewrite calculate_roi_eq. eexists. split; [ reflexivity | ]. simpl.
  assert (Hsold : is_zero (fmul (fmul (daily_sessions p) (float_of_int 30))
                             (avg_kwh_per_session p)) = true).
  { apply fmul_zero_l; [ apply fmul_zero_l; [ exact Hidle | reflexivity ] | exact Havg ]. }
  pose proof (fmul_zero_l _ _ Hsold Htariff) as Hrev.
  pose proof (fmul_zero_l _ _ Hsold Hcost) as Hen.
  apply is_zero_inv in Hrev as [s1 Hrev]. apply is_zero_inv in Hen as [s2 Hen].
  assert (Hprofit : gt0 (roi_profit p) = false).
  { unfold roi_profit. cbv zeta. rewrite Hrev, Hen. apply idle_profit, Hopex. }
  unfold Spec.revenue, Spec.profit, Spec.payback. cbv zeta.
  rewrite Hrev. fold (roi_profit p) in *.
  split_and!.
  - reflexivity.
  - destruct (gt0 (round2 _)) eqn:H; [ | reflexivity ].
    apply gt0_round2 in H.
    unfold roi_profit in Hprofit. cbv zeta in Hprofit. rewrite Hrev in Hprofit.
    congruence.
  - rewrite Hprofit. reflexivity.
Qed.

Lemma idle_station_no_payback_witness :
  exists out,
    calculate_roi Sample.roi_idle = Return out
    /\ is_zero (monthly_revenue out) = true
    /\ gt0 (monthly_profit out) = false
    /\ payback_months out = None.
Proof.
  apply (idle_station_no_payback Sample.roi_idle); vm_compute; reflexivity.
Defined.

(* ===================================================================== *)
(** * Further properties of lead capture *)
(* ===================================================================== *)

(** The handler with its trace: the write, and after a write that
    succeeded the mails. *)
Lemma create_lead_trace (w : World) (lead : LeadIn) (tr : trace) :
  create_lead w lead tr
  = match create_document w (py "lead") (model_dump lead) tr with
    | Return lead_id =>
        (Ok [("status", py "success"); ("id", lead_id)],
         tr ++ EvCreateDocument (py "lead") (model_dump lead) :: Spec.lead_mails w lead)
    | Raise e =>
        (HTTPException 500 (exn_str e),
         tr ++ [EvCreateDocument (py "lead") (model_dump lead)])
    end.
Proof.
  unfold create_lead, create_lead_try, bind, call_create_document,
    Spec.lead_mails, Spec.configured.
  destruct (create_document w (py "lead") (model_dump lead) tr) as [lead_id | e];
    [ | reflexivity ].
  rewrite send_auto_email_eq.
  destruct (getenv w "NOTIFY_EMAIL") as [[ | c notify] | ];
    unfold truthy_opt, truthy, or_empty, Spec.confirmation_subject,
      Spec.notification_subject, Spec.notification_html;
    cbv beta iota;
    rewrite ?send_auto_email_eq; unfold ret;
    rewrite ?app_nil_r, <- ?app_assoc; cbn [app]; reflexivity.
Qed.

(** X5. When the write to the store raises, the handler answers 500 with
    the text of the exception and no mail is attempted: the write is the
    only call made. *)
Theorem failed_write_sends_no_mail
  (w : World) (lead : LeadIn) (tr : trace) (e : exn) :
  create_document w (py "lead") (model_dump lead) tr = Raise e ->
  create_lead w lead tr
  = (HTTPException 500 (exn_str e),
     tr ++ [EvCreateDocument (py "lead") (model_dump lead)]).
Proof. intros H. rewrite create_lead_trace, H. reflexivity. Qed.

Lemma failed_write_sends_no_mail_witness :
  create_lead Sample.store_down Sample.lead_asha []
  = (HTTPException 500 (exn_str (Exn "Exception" (py "Database not available"))),
     [] ++ [EvCreateDocument (py "lead") (model_dump Sample.lead_asha)]).
Proof.
  apply (failed_write_sends_no_mail Sample.store_down Sample.lead_asha []
           (Exn "Exception" (py "Database not available"))).
  reflexivity.
Defined.

(** X6. After a write that succeeded the handler makes, in this order,
    the confirmation dispatch to the address of the lead (fixed subject,
    the HTML body of the lead) and, only with NOTIFY_EMAIL configured, the
    notification dispatch to that address with the subject
    "New Lead: <name>"; each dispatch is the call of the configured
    provider, or nothing. *)
Theorem stored_lead_is_mailed
  (w : World) (lead : LeadIn) (tr : trace) (lead_id : str) :
  create_document w (py "lead") (model_dump lead) tr = Return lead_id ->
  snd (create_lead w lead tr)
  = tr ++ EvCreateDocument (py "lead") (model_dump lead)
       :: Spec.dispatched w (email lead) (py "Thanks for contacting A Plus Charge")
            (html_body lead)
       ++ (if Spec.configured w "NOTIFY_EMAIL"
           then Spec.dispatched w (or_empty (getenv w "NOTIFY_EMAIL"))
                  (py "New Lead: " ++ name lead)
                  (py "New website lead:<br/><pre>" ++ repr_dict w (model_dump lead)
                     ++ py "</pre>")
           else []).
Proof. intros H. rewrite create_lead_trace, H. reflexivity. Qed.

Lemma stored_lead_is_mailed_witness :
  exists confirmation notification,
    snd (create_lead Sample.mailgun_world Sample.lead_asha [])
    = [ EvCreateDocument (py "lead") (model_dump Sample.lead_asha);
        EvPost confirmation; EvPost notification ]
    /\ data confirmation
       = Some (message_fields (py "noreply@apluscharge.com") (py "asha@example.com")
                 (py "Thanks for contacting A Plus Charge")
                 (html_body Sample.lead_asha))
    /\ data notification
       = Some (message_fields (py "noreply@apluscharge.com") (py "sales@apluscharge.com")
                 (py "New Lead: Asha") (py "New website lead:<br/><pre>{...}</pre>")).
Proof.
  pose proof (stored_lead_is_mailed Sample.mailgun_world Sample.lead_asha []
                (py "665f0c1e9b1d8a2f4c3e7a10") eq_refl) as H.
  rewrite H. vm_compute. eexists. eexists. split_and!; reflexivity.
Defined.

Lemma dispatched_posts (w : World) (to_email subject html : str) :
  (length (Spec.dispatched w to_email subject html) <= 1)%nat
  /\ forallb Spec.is_post (Spec.dispatched w to_email subject html) = true.
Proof.
  unfold Spec.dispatched.
  destruct (Spec.dispatch_request w to_email subject html); simpl; split; auto.
Qed.

Lemma lead_mails_posts (w : World) (lead : LeadIn) :
  (length (Spec.lead_mails w lead) <= 2)%nat
  /\ forallb Spec.is_post (Spec.lead_mails w lead) = true.
Proof.
  unfold Spec.lead_mails.
  destruct (dispatched_posts w (email lead) Spec.confirmation_subject (html_body lead))
    as [H1 H2].
  rewrite length_app, forallb_app, H2.
  destruct (Spec.configured w "NOTIFY_EMAIL"); simpl.
  - destruct (dispatched_posts w (or_empty (getenv w "NOTIFY_EMAIL"))
                (Spec.notification_subject lead) (Spec.notification_html w lead))
      as [H3 H4].
    split; [ lia | exact H4 ].
  - split; [ lia | reflexivity ].
Qed.

(** X7. Whatever the body, the route only adds to the trace of calls, at
    most three of them: either nothing, or one write to the collection
    "lead" followed by at most two provider calls.  No mail is ever sent
    before the write. *)
Theorem at_most_one_write_then_two_mails (w : World) (body : JSON) (tr : trace) :
  exists new,
    snd (post_api_leads w body tr) = tr ++ new
    /\ (length new <= 3)%nat
    /\ (new = []
        \/ exists doc mails,
             new = EvCreateDocument (py "lead") doc :: mails
             /\ forallb Spec.is_post mails = true).
Proof.
  unfold post_api_leads.
  destruct (validate_LeadIn w body) as [errors | lead].
  - exists []. rewrite app_nil_r. split_and!; [ reflexivity | simpl; lia | left; reflexivity ].
  - rewrite create_lead_trace.
    destruct (create_document w (py "lead") (model_dump lead) tr) as [lead_id | e].
    + destruct (lead_mails_posts w lead) as [Hlen Hposts].
      eexists. split_and!; [ reflexivity | simpl; lia | ].
      right. eexists. eexists. split; [ reflexivity | exact Hposts ].
    + eexists. split_and!; [ reflexivity | simpl; lia | ].
      right. exists (model_dump lead), []. split; reflexivity.
Qed.

(** X8. Without provider credentials a valid lead costs exactly one
    outside call, the write: no network call is made, with or without
    NOTIFY_EMAIL. *)
Theorem no_credentials_no_network
  (w : World) (body : JSON) (lead : LeadIn) (tr : trace) :
  validate_LeadIn w body = inr lead ->
  Spec.selected_provider w = None ->
  snd (post_api_leads w body tr)
  = tr ++ [EvCreateDocument (py "lead") (model_dump lead)].
Proof.
  intros Hvalid Hnone. unfold post_api_leads. rewrite Hvalid, create_lead_trace.
  assert (Hmails : Spec.lead_mails w lead = []).
  { unfold Spec.lead_mails, Spec.dispatched, Spec.dispatch_request.
    rewrite Hnone. destruct (Spec.configured w "NOTIFY_EMAIL"); reflexivity. }
  rewrite Hmails.
  destruct (create_document w (py "lead") (model_dump lead) tr); reflexivity.
Qed.

Lemma no_credentials_no_network_witness :
  snd (post_api_leads Sample.bare_world Sample.body_asha [])
  = [] ++ [EvCreateDocument (py "lead") (model_dump Sample.lead_asha)].
Proof.
  apply (no_credentials_no_network Sample.bare_world Sample.body_asha
           Sample.lead_asha []); vm_compute; reflexivity.
Defined.

(** Decides the next field of the validation chain. *)
Ltac next_field H :=
  match type of H with
  | context [mbind _ ?r] =>
      let E := fresh "Hfield" in
      destruct r eqn:E; cbn [mbind option_bind] in H
  end.

(** What a validated lead was read from. *)
Lemma validate_LeadIn_inr (w : World) (o : list (string * JSON)) (lead : LeadIn) :
  validate_LeadIn w (JObj o) = inr lead ->
  required_str "name" o = Some (name lead)
  /\ required_email w "email" o = Some (email lead)
  /\ optional_str "phone" None o = Some (phone lead)
  /\ optional_str "company" None o = Some (company lead)
  /\ optional_str "message" None o = Some (message lead)
  /\ optional_str "city" None o = Some (city lead)
  /\ optional_str "state" None o = Some (state lead)
  /\ optional_str "country" (Some (py "India")) o = Some (country lead)
  /\ optional_str "source" (Some (py "website")) o = Some (source lead)
  /\ optional_str "utm_source" None o = Some (utm_source lead)
  /\ optional_str "utm_medium" None o = Some (utm_medium lead)
  /\ optional_str "utm_campaign" None o = Some (utm_campaign lead).
Proof.
  intros H. unfold validate_LeadIn in H. cbv zeta in H.
  do 12 (next_field H; [ | discriminate H ]).
  injection H as <-. cbn. split_and!; reflexivity.
Qed.

(** Decides a field of [validation_errors]; a field that fails ends the
    case: the errors are not empty and the body is rejected. *)
Ltac field r := destruct r; [ | left; split; [ discriminate | reflexivity ] ].

(** A body is validated exactly when none of its fields fails, and the
    errors of a rejected body are its failing fields. *)
Lemma validate_LeadIn_cases (w : World) (o : list (string * JSON)) :
  (validation_errors w o <> []
   /\ validate_LeadIn w (JObj o) = inl (validation_errors w o))
  \/ (validation_errors w o = []
      /\ exists lead, validate_LeadIn w (JObj o) = inr lead).
Proof.
  unfold validate_LeadIn, validation_errors. cbv zeta.
  destruct (required_str "name" o);
    [ | left; split; [ discriminate | reflexivity ] ].
  destruct (required_email w "email" o);
    [ | left; split; [ discriminate | reflexivity ] ].
  field (optional_str "phone" None o).
  field (optional_str "company" None o).
  field (optional_str "message" None o).
  field (optional_str "city" None o).
  field (optional_str "state" None o).
  field (optional_str "country" (Some (py "India")) o).
  field (optional_str "source" (Some (py "website")) o).
  field (optional_str "utm_source" None o).
  field (optional_str "utm_medium" None o).
  field (optional_str "utm_campaign" None o).
  right. split; [ reflexivity | eexists; reflexivity ].
Qed.

Lemma filter_cons_app (f : string -> bool) (k : string) (l : list string) :
  List.filter f (k :: l) = (if f k then [k] else []) ++ List.filter f l.
Proof. simpl. destruct (f k); reflexivity. Qed.

(** One field of [validation_errors] against [Spec.field_fails]. *)
Ltac field_case :=
  unfold failed, required_str, required_email, optional_str, Spec.field_fails;
  match goal with
  | |- context [member ?k ?o] =>
      destruct (member k o) as [[ | b | x | s | l | m] | ]; try reflexivity
  end;
  match goal with
  | |- context [validate_email ?w ?s] => destruct (validate_email w s); reflexivity
  end.

(** The errors of the validation are the fields that fail, taken in the
    order in which [LeadIn] declares them. *)
Lemma validation_errors_in_class_order (w : World) (o : list (string * JSON)) :
  validation_errors w o
  = List.filter (Spec.field_fails w o)
      [ "name"; "email"; "phone"; "company"; "message"; "city"; "state";
        "country"; "source"; "utm_source"; "utm_medium"; "utm_campaign" ].
Proof.
  unfold validation_errors. rewrite !filter_cons_app.
  cbn [List.filter]. rewrite app_nil_r.
  repeat (f_equal; [ field_case | ]). field_case.
Qed.

(** X9. An object body is answered 422 exactly when at least one field
    of LeadIn fails on it (name or email missing or not a string, email
    not an address, another field neither absent, null nor a string), and
    the 422 lists the failing fields in the order of the class: name,
    email, phone, company, message, city, state, country, source,
    utm_source, utm_medium, utm_campaign; otherwise the body is a lead
    and the handler runs.  In both cases nothing is called before
    validation is over. *)
Theorem rejected_iff_a_field_fails (w : World) (o : list (string * JSON)) (tr : trace) :
  let failing :=
    List.filter (Spec.field_fails w o)
      [ "name"; "email"; "phone"; "company"; "message"; "city"; "state";
        "country"; "source"; "utm_source"; "utm_medium"; "utm_campaign" ] in
  (failing <> []
   /\ post_api_leads w (JObj o) tr = (UnprocessableEntity failing, tr))
  \/ (failing = []
      /\ exists lead mails,
           validate_LeadIn w (JObj o) = inr lead
           /\ snd (post_api_leads w (JObj o) tr)
              = tr ++ EvCreateDocument (py "lead") (model_dump lead) :: mails).
Proof.
  intros failing. subst failing. rewrite <- validation_errors_in_class_order.
  unfold post_api_leads.
  destruct (validate_LeadIn_cases w o) as [[Herr Hv] | [Herr [lead Hv]]]; rewrite Hv.
  - left. split; [ exact Herr | reflexivity ].
  - right. split; [ exact Herr | ]. exists lead.
    rewrite create_lead_trace.
    destruct (create_document w (py "lead") (model_dump lead) tr);
      eexists; split; reflexivity.
Qed.

(** X10. The lead that is stored is the one that was validated: its name
    is the string submitted as name, its email is what the address check
    made of the string submitted as email, and the write of its dump is
    the first call of the request. *)
Theorem stored_lead_was_validated
  (w : World) (o : list (string * JSON)) (lead : LeadIn) (tr : trace) :
  validate_LeadIn w (JObj o) = inr lead ->
  member "name" o = Some (JStr (name lead))
  /\ (exists submitted,
         member "email" o = Some (JStr submitted)
         /\ validate_email w submitted = Some (email lead))
  /\ (exists mails,
         snd (post_api_leads w (JObj o) tr)
         = tr ++ EvCreateDocument (py "lead") (model_dump lead) :: mails).
Proof.
  intros Hvalid.
  destruct (validate_LeadIn_inr w o lead Hvalid) as (Hname & Hemail & _).
  unfold required_str in Hname. unfold required_email in Hemail.
  split_and!.
  - destruct (member "name" o) as [[ | | | s | | ] | ]; try discriminate Hname.
    injection Hname as ->. reflexivity.
  - destruct (member "email" o) as [[ | | | s | | ] | ]; try discriminate Hemail.
    exists s. split; [ reflexivity | exact Hemail ].
  - unfold post_api_leads. rewrite Hvalid, create_lead_trace.
    destruct (create_document w (py "lead") (model_dump lead) tr);
      eexists; reflexivity.
Qed.

Lemma stored_lead_was_validated_witness :
  member "name" [ ("name", JStr (py "Asha")); ("email", JStr (py "asha@example.com")) ]
  = Some (JStr (name Sample.lead_asha)).
Proof.
  apply (stored_lead_was_validated Sample.bare_world
           [ ("name", JStr (py "Asha")); ("email", JStr (py "asha@example.com")) ]
           Sample.lead_asha []).
  vm_compute. reflexivity.
Defined.

(** X11. The defaults of LeadIn apply to absent fields only: a lead
    validated from a body without country has country "India" and one
    without source has source "website", while an explicit null in
    either field gives None, not the default. *)
Theorem defaults_for_absent_fields_only
  (w : World) (o : list (string * JSON)) (lead : LeadIn) :
  validate_LeadIn w (JObj o) = inr lead ->
  (member "country" o = None -> country lead = Some (py "India"))
  /\ (member "source" o = None -> source lead = Some (py "website"))
  /\ (member "country" o = Some JNull -> country lead = None)
  /\ (member "source" o = Some JNull -> source lead = None).
Proof.
  intros Hvalid.
  destruct (validate_LeadIn_inr w o lead Hvalid)
    as (_ & _ & _ & _ & _ & _ & _ & Hcountry & Hsource & _).
  unfold optional_str in Hcountry, Hsource.
  split_and!; intros H; rewrite H in *; congruence.
Qed.

Lemma defaults_for_absent_fields_only_witness :
  country Sample.lead_asha = Some (py "India")
  /\ source Sample.lead_asha = Some (py "website").
Proof.
  destruct (defaults_for_absent_fields_only Sample.bare_world
              [ ("name", JStr (py "Asha")); ("email", JStr (py "asha@example.com")) ]
              Sample.lead_asha) as (Hcountry & Hsource & _).
  - vm_compute. reflexivity.
  - split; [ apply Hcountry | apply Hsource ]; reflexivity.
Defined.

Lemma mistyped_fails (k : string) (default : option str)
  (o : list (string * JSON)) (v : JSON) :
  member k o = Some v -> Spec.not_text v -> failed k (optional_str k default o) = [k].
Proof.
  intros Hm Hv. unfold optional_str. rewrite Hm.
  destruct v; simpl in Hv; try contradiction; reflexivity.
Qed.

(** X12. The optional fields are checked for their type: a body in which
    one of them (phone, company, message, city, state, country, source,
    utm_source, utm_medium, utm_campaign) holds a value that is neither a
    string nor null is answered 422 naming that field, and nothing is
    stored or sent. *)
Theorem mistyped_optional_field_rejected
  (w : World) (o : list (string * JSON)) (k : string) (v : JSON) (tr : trace) :
  In k Spec.optional_fields ->
  member k o = Some v ->
  Spec.not_text v ->
  exists errors,
    post_api_leads w (JObj o) tr = (UnprocessableEntity errors, tr)
    /\ In k errors.
Proof.
  intros Hk Hm Hv.
  assert (Hin : In k (validation_errors w o)).
  { unfold validation_errors. rewrite !in_app_iff.
    unfold Spec.optional_fields in Hk. simpl in Hk.
    repeat (destruct Hk as [<- | Hk];
            [ rewrite (mistyped_fails _ _ o v Hm Hv); simpl; tauto | ]).
    contradiction. }
  destruct (validate_LeadIn_cases w o) as [[_ H] | [Hnil _]].
  - exists (validation_errors w o). unfold post_api_leads. rewrite H.
    split; [ reflexivity | exact Hin ].
  - rewrite Hnil in Hin. contradiction.
Qed.

Lemma mistyped_optional_field_rejected_witness :
  exists errors,
    post_api_leads Sample.bare_world Sample.body_phone_number []
    = (UnprocessableEntity errors, [])
    /\ In "phone" errors.
Proof.
  apply (mistyped_optional_field_rejected Sample.bare_world _ "phone"
           (JNum (float_of_int 12345)) []).
  - simpl. tauto.
  - reflexivity.
  - exact I.
Defined.

(* ===================================================================== *)
(** * Further properties of the e-mail dispatcher *)
(* ===================================================================== *)


(* ===================================================================== *)
(** * Further properties of the diagnostic route *)
(* ===================================================================== *)

(** Runs the diagnosis on a world whose steps are known. *)
Ltac diagnose :=
  unfold test_database, test_database_body, try_except, bind, lift, modify;
  repeat match goal with
         | H : _ = Return _ |- _ => rewrite H
         | H : _ = Raise _ |- _ => rewrite H
         end;
  cbv beta iota.

Lemma rendered_error_length (prefix : str) (e : exn) :
  (length (prefix ++ slice_to 80 (exn_str e)) <= length prefix + 80)%nat.
Proof. rewrite length_app. pose proof (slice_to_length 80 (exn_str e)). lia. Qed.

(** X14. The database field of the response is a short text whatever the
    exception says: never more than 104 characters. *)
Theorem database_text_bounded (w : World) :
  exists r, test_database w = Return r /\ (length (database r) <= 104)%nat.
Proof.
  assert (H1 : (length (py "❌ Error: ") + 80 <= 104)%nat) by (vm_compute; lia).
  assert (H2 : (length (py "⚠️ Connected but Error: ") + 80 <= 104)%nat)
    by (vm_compute; lia).
  unfold test_database, test_database_body, try_except, bind, lift, modify.
  destruct (import_db w) as [[db | ] | e]; cbv beta iota.
  - destruct (db_name db) as [nm | e]; cbv beta iota.
    + destruct (list_collection_names db) as [cs | e]; cbv beta iota;
        eexists; (split; [ reflexivity | ]); cbn [database set_database].
      * vm_compute. lia.
      * pose proof (rendered_error_length (py "⚠️ Connected but Error: ") e). lia.
    + eexists. split; [ reflexivity | ]. cbn [database set_database].
      pose proof (rendered_error_length (py "❌ Error: ") e). lia.
  - eexists. split; [ reflexivity | ]. vm_compute. lia.
  - eexists. split; [ reflexivity | ]. cbn [database set_database].
    pose proof (rendered_error_length (py "❌ Error: ") e). lia.
Qed.

(** X15. When the listing of the collections raises, what was found
    before is kept: the response still says "Connected", still has the
    database_url and database_name texts, lists no collection, and the
    database field reports the exception after "Connected but Error". *)
Theorem listing_failure_keeps_diagnosis
  (w : World) (db : Database) (nm : option str) (e : exn) :
  import_db w = Return (Some db) ->
  db_name db = Return nm ->
  list_collection_names db = Raise e ->
  test_database w
  = Return {| backend := py "✅ Running";
              database := py "⚠️ Connected but Error: " ++ slice_to 80 (exn_str e);
              database_url := Some (if truthy_opt (getenv w "DATABASE_URL")
                                    then py "✅ Set" else py "❌ Not Set");
              database_name := Some (or_default nm (py "✅ Connected"));
              connection_status := py "Connected";
              collections := [] |}.
Proof. intros Hdb Hname Hlist. diagnose. reflexivity. Qed.

Lemma listing_failure_keeps_diagnosis_witness :
  test_database (Sample.with_database Sample.handle_unauthorized)
  = Return {| backend := py "✅ Running";
              database := py "⚠️ Connected but Error: "
                          ++ slice_to 80 (exn_str (Exn "OperationFailure"
                                                     (py "not authorized on apluscharge")));
              database_url :=
                Some (if truthy_opt (getenv (Sample.with_database Sample.handle_unauthorized)
                                       "DATABASE_URL")
                      then py "✅ Set" else py "❌ Not Set");
              database_name := Some (or_default None (py "✅ Connected"));
              connection_status := py "Connected";
              collections := [] |}.
Proof.
  apply (listing_failure_keeps_diagnosis
           (Sample.with_database Sample.handle_unauthorized)
           Sample.handle_unauthorized None
           (Exn "OperationFailure" (py "not authorized on apluscharge")));
    reflexivity.
Defined.

(** X16. When the name of the database handle cannot be read, the
    diagnosis stops half way: database_url is already filled in, while
    database_name stays None, connection_status stays "Not Connected",
    no collection is listed and the database field reports the
    exception after "Error". *)
Theorem unreadable_name_stops_diagnosis (w : World) (db : Database) (e : exn) :
  import_db w = Return (Some db) ->
  db_name db = Raise e ->
  test_database w
  = Return {| backend := py "✅ Running";
              database := py "❌ Error: " ++ slice_to 80 (exn_str e);
              database_url := Some (if truthy_opt (getenv w "DATABASE_URL")
                                    then py "✅ Set" else py "❌ Not Set");
              database_name := None;
              connection_status := py "Not Connected";
              collections := [] |}.
Proof. intros Hdb Hname. diagnose. reflexivity. Qed.

Lemma unreadable_name_stops_diagnosis_witness :
  test_database (Sample.with_database Sample.handle_broken)
  = Return {| backend := py "✅ Running";
              database := py "❌ Error: "
                          ++ slice_to 80 (exn_str (Exn "RuntimeError" (py "handle closed")));
              database_url :=
                Some (if truthy_opt (getenv (Sample.with_database Sample.handle_broken)
                                       "DATABASE_URL")
                      then py "✅ Set" else py "❌ Not Set");
              database_name := None;
              connection_status := py "Not Connected";
              collections := [] |}.
Proof.
  apply (unreadable_name_stops_diagnosis
           (Sample.with_database Sample.handle_broken) Sample.handle_broken
           (Exn "RuntimeError" (py "handle closed")));
    reflexivity.
Defined.

Lemma or_default_truthy (o : option str) (default : str) :
  truthy default = true -> truthy (or_default o default) = true.
Proof.
  intros H. unfold or_default.
  destruct o as [[ | c s] | ]; simpl; auto.
Qed.

(** X17. With a working database the response lists the first ten
    collection names in the order of the listing -- all of them when
    there are at most ten -- and says "Connected & Working"; the
    database_name is the name of the handle, or "Connected" in its place
    when the handle has no name or an empty one, so it is never empty. *)
Theorem working_database_report
  (w : World) (db : Database) (nm : option str) (cs : list str) :
  import_db w = Return (Some db) ->
  db_name db = Return nm ->
  list_collection_names db = Return cs ->
  exists r,
    test_database w = Return r
    /\ database r = py "✅ Connected & Working"
    /\ connection_status r = py "Connected"
    /\ collections r = take 10 cs
    /\ ((length cs <= 10)%nat -> collections r = cs)
    /\ (exists shown, database_name r = Some shown
                      /\ truthy shown = true
                      /\ (truthy_opt nm = true -> Some shown = nm)
                      /\ (truthy_opt nm = false -> shown = py "✅ Connected")).
Proof.
  intros Hdb Hname Hlist. diagnose.
  eexists. split; [ reflexivity | ]. cbn [database connection_status collections
    database_name set_database set_collections set_connection_status
    set_database_name set_database_url].
  split_and!; try reflexivity.
  - intros Hlen. apply take_ge. exact Hlen.
  - eexists. split_and!; [ reflexivity | | | ].
    + apply or_default_truthy. vm_compute. reflexivity.
    + unfold or_default. intros Ht.
      destruct nm as [[ | c s] | ]; try discriminate Ht; reflexivity.
    + unfold or_default. intros Ht. rewrite Ht. reflexivity.
Qed.

Lemma working_database_report_witness :
  exists r,
    test_database (Sample.with_database Sample.handle) = Return r
    /\ database r = py "✅ Connected & Working"
    /\ (length (collections r) = 10)%nat
    /\ database_name r = Some (py "apluscharge").
Proof.
  destruct (working_database_report (Sample.with_database Sample.handle)
              Sample.handle (Some (py "apluscharge"))
              (map py [ "lead"; "users"; "stations"; "sessions"; "tariffs";
                        "invoices"; "payments"; "sites"; "alerts"; "audit";
                        "tokens"; "jobs" ])
              eq_refl eq_refl eq_refl)
    as (r & Hr & Hdb & _ & Hcs & _ & shown & Hname & _ & Hshown & _).
  exists r. split_and!; [ exact Hr | exact Hdb | rewrite Hcs; reflexivity | ].
  rewrite Hname. apply Hshown. reflexivity.
Defined.

(** X18. When the database module cannot be imported, nothing else is
    diagnosed: database_url and database_name stay None, the status
    stays "Not Connected", and the database field is "Error: " followed
    by the text of the exception -- in full when it has at most 80
    characters, and cut to exactly 80 otherwise. *)
Theorem import_failure_report (w : World) (e : exn) :
  import_db w = Raise e ->
  exists text,
    test_database w
    = Return {| backend := py "✅ Running";
                database := py "❌ Error: " ++ text;
                database_url := None;
                database_name := None;
                connection_status := py "Not Connected";
                collections := [] |}
    /\ ((length (exn_str e) <= 80)%nat -> text = exn_str e)
    /\ ((80 < length (exn_str e))%nat ->
        length text = 80%nat /\ exists rest, exn_str e = text ++ rest).
Proof.
  intros Himport. diagnose. exists (slice_to 80 (exn_str e)).
  split_and!; [ reflexivity | | ].
  - intros Hlen. apply take_ge. exact Hlen.
  - intros Hlen. unfold slice_to. split.
    + rewrite length_take. lia.
    + exists (drop 80 (exn_str e)). symmetry. apply take_drop.
Qed.

Lemma import_failure_report_witness :
  exists text,
    test_database Sample.store_down
    = Return {| backend := py "✅ Running";
                database := py "❌ Error: " ++ text;
                database_url := None;
                database_name := None;
                connection_status := py "Not Connected";
                collections := [] |}
    /\ ((length (exn_str (Exn "ImportError" (py "cannot import name 'db'"))) <= 80)%nat ->
        text = exn_str (Exn "ImportError" (py "cannot import name 'db'")))
    /\ ((80 < length (exn_str (Exn "ImportError" (py "cannot import name 'db'"))))%nat ->
        length text = 80%nat
        /\ exists rest, exn_str (Exn "ImportError" (py "cannot import name 'db'"))
                        = text ++ rest).
Proof.
  apply (import_failure_report Sample.store_down
           (Exn "ImportError" (py "cannot import name 'db'"))).
  reflexivity.
Defined.
